(** * PyTorch_Template/agent.py: the training agent, embedded in Rocq

    The agent is orchestration code around three collaborators: the
    tensor library (network, optimizer, learning-rate scheduler, autograd),
    the event writer and the file system.  Each method of [BaseAgent] is
    embedded as a program of a small state-and-exception monad over the
    agent's attributes and the part of the outside world it touches.

    Scalars (tensor entries, learning rates, logged values) are rationals:
    rounding is outside the model. *)

From Stdlib Require Import QArith Ascii String.
From stdpp Require Import gmap strings list fin_maps pretty.

Local Open Scope Z_scope.

(** ** Python values and exceptions *)

(** The exceptions the agent or its collaborators raise. *)
Inductive PyExn :=
  | NotImplementedError
  | ValueError (msg : string)
  | TypeError (msg : string)
  | AttributeError (msg : string)
  | RuntimeError (msg : string)
  | IndexError (msg : string)
  | ZeroDivisionError (msg : string)
  | OSError (msg : string).

(** What a call produces: a value, or an exception that reaches the caller. *)
Inductive Outcome (A : Type) :=
  | Return (a : A)
  | Raise (e : PyExn).
Arguments Return {A} a.
Arguments Raise {A} e.

(** The values passed as [name] to [save_ckpt] and [load_ckpt]. *)
Inductive PyObj :=
  | PyNone
  | PyStr (s : string)
  | PyInt (z : Z).

(** [str(x)], as ["{}".format(x)] renders it. *)
Definition py_str (x : PyObj) : string :=
  match x with
  | PyNone => "None"
  | PyStr s => s
  | PyInt z => pretty z
  end.

(** [x == s] for a string literal [s]. *)
Definition py_eq_str (x : PyObj) (s : string) : bool :=
  match x with
  | PyStr s' => bool_decide (s' = s)
  | _ => false
  end.

(** ** os.path (posix) *)

Definition startswith_sep (s : string) : bool :=
  match s with
  | String "/"%char _ => true
  | _ => false
  end.

Fixpoint endswith_sep (s : string) : bool :=
  match s with
  | EmptyString => false
  | String c EmptyString => bool_decide (c = "/"%char)
  | String _ s' => endswith_sep s'
  end.

(** [os.path.join(a, b)]: an absolute [b] discards [a]; a separator is
    inserted unless [a] is empty or already ends with one. *)
Definition path_join (a b : string) : string :=
  if startswith_sep b then b
  else if bool_decide (a = "") || endswith_sep a then a +:+ b
  else a +:+ "/" +:+ b.

(** ** Tensors and autograd *)

(** A scalar tensor: its value and, when it is attached to the autograd
    graph, its gradient with respect to the network's parameters. *)
Record Tensor := {
  t_value : Q;
  t_grad : option (list Q)
}.

(** Entry-wise sum of two gradients. *)
Fixpoint vadd (g1 g2 : list Q) : list Q :=
  match g1, g2 with
  | [], _ => g2
  | _, [] => g1
  | x :: g1', y :: g2' => (x + y)%Q :: vadd g1' g2'
  end.

Definition grad_add (g1 g2 : option (list Q)) : option (list Q) :=
  match g1, g2 with
  | None, _ => g2
  | _, None => g1
  | Some a, Some b => Some (vadd a b)
  end.

Definition tensor_add (t1 t2 : Tensor) : Tensor :=
  {| t_value := (t_value t1 + t_value t2)%Q;
     t_grad := grad_add (t_grad t1) (t_grad t2) |}.

(** What [sum] folds over: the integer start value and tensors. *)
Inductive PyNum :=
  | NumInt (z : Z)
  | NumTensor (t : Tensor).

(** [a + b]; an integer operand is broadcast into the tensor. *)
Definition py_add (a b : PyNum) : PyNum :=
  match a, b with
  | NumInt x, NumInt y => NumInt (x + y)
  | NumInt x, NumTensor t =>
      NumTensor {| t_value := (t_value t + inject_Z x)%Q; t_grad := t_grad t |}
  | NumTensor t, NumInt y =>
      NumTensor {| t_value := (t_value t + inject_Z y)%Q; t_grad := t_grad t |}
  | NumTensor t1, NumTensor t2 => NumTensor (tensor_add t1 t2)
  end.

(** The builtin [sum(iterable)]: a left fold from the integer [0]. *)
Definition py_sum (l : list PyNum) : PyNum :=
  fold_left py_add l (NumInt 0).

(** A loss dictionary: named loss terms in insertion order.  A Python dict
    holds each key once; [dict_wf] says so. *)
Definition LossDict := list (string * Tensor).

Definition dict_keys (d : LossDict) : list string := map fst d.
Definition dict_values (d : LossDict) : list Tensor := map snd d.
Definition dict_wf (d : LossDict) : Prop := NoDup (dict_keys d).

(** ** The collaborators' objects *)

Inductive Device := Host | Cuda.

(** [nn.Module]: parameter values, their accumulated gradient ([None]
    when cleared), the memory the parameters live in, and the
    training/evaluation flag. *)
Record Module := {
  params : list Q;
  grads : option (list Q);
  residency : Device;
  training : bool
}.

(** [self.net]: a module, possibly wrapped in [nn.DataParallel]. *)
Record Net := {
  data_parallel : bool;
  module : Module
}.

(** [Module.state_dict()]: the parameter tensors, on the device they are
    on when the call is made. *)
Record StateDict := {
  sd_device : Device;
  sd_values : list Q
}.

Record ParamGroup := {
  lr : Q;
  initial_lr : Q
}.

(** [optim.Optimizer]: its parameter groups and its per-parameter state. *)
Record Optimizer := {
  param_groups : list ParamGroup;
  opt_state : list Q
}.

(** [Optimizer.state_dict()]. *)
Record OptimizerDict := {
  od_state : list Q;
  od_param_groups : list ParamGroup
}.

(** [optim.lr_scheduler.StepLR]: the attributes that decide the rates.
    The optimizer it refers to is the agent's; the bookkeeping the library
    keeps besides (its count of calls, the rates last computed) is not
    modelled. *)
Record StepLR := {
  step_size : Z;
  gamma : Q;
  base_lrs : list Q;
  last_epoch : Z
}.

(** Modelled from the spec: [utils.TrainClock], the counters [epoch] and
    [step] (section 3 of the specification: "mutable counters epoch and
    step ... serialized to/from a checkpoint's embedded sub-record"). *)
Record TrainClock := {
  epoch : Z;
  step : Z
}.

(** Modelled from the spec: the sub-record [TrainClock.make_checkpoint]
    builds, holding both counters. *)
Record ClockDict := {
  cd_epoch : Z;
  cd_step : Z
}.

(** Modelled from the spec: [TrainClock.make_checkpoint]. *)
Definition make_checkpoint (c : TrainClock) : ClockDict :=
  {| cd_epoch := epoch c; cd_step := step c |}.

(** Modelled from the spec: [TrainClock.restore_checkpoint]. *)
Definition restore_checkpoint (c : TrainClock) (d : ClockDict) : TrainClock :=
  {| epoch := cd_epoch d; step := cd_step d |}.

(** The record [torch.save] writes in [save_ckpt]. *)
Record Checkpoint := {
  ck_clock : ClockDict;
  ck_model_state_dict : StateDict;
  ck_optimizer_state_dict : OptimizerDict;
  ck_scheduler_state_dict : StepLR
}.

(** One [add_scalar(tag, value, global_step)] entry of a [SummaryWriter]. *)
Record Scalar := {
  sc_tag : string;
  sc_value : Q;
  sc_step : Z
}.

(** ** The agent and the world around it *)

Record Config := {
  cfg_log_dir : string;
  cfg_model_dir : string;
  cfg_device : string;
  cfg_batch_size : Z;
  cfg_lr : Q;
  cfg_lr_step_size : Z
}.

(** [nn.MSELoss]: a loss function without state. *)
Inductive Criterion := MSELoss.

(** The attributes [BaseAgent.__init__] sets. *)
Record Agent := {
  log_dir : string;
  model_dir : string;
  clock : TrainClock;
  device : string;
  batch_size : Z;
  net : Net;
  criterion : Criterion;
  optimizer : Optimizer;
  scheduler : StepLR;
  train_tb : list Scalar;
  val_tb : list Scalar
}.

(** Calls into the autograd engine and the optimizer, in the order made. *)
Inductive TorchCall :=
  | CallZeroGrad
  | CallBackward (loss : Tensor)
  | CallOptimizerStep (g : option (list Q)).

(** What the agent reaches outside itself: checkpoint files by path, the
    paths that cannot be opened for writing and what [torch.save] raises
    for each of them, the lines [print] has written, the autograd mode and
    the record of calls made.  The event files of the two writers and
    warnings of the library are not part of it. *)
Record World := {
  files : gmap string Checkpoint;
  unwritable : gset string;
  save_error : string → PyExn;
  stdout : list string;
  grad_enabled : bool;
  torch_calls : list TorchCall
}.

Record State := {
  agent : Agent;
  world : World
}.

(** ** The monad of agent methods *)

(** A method runs from a state to an outcome and the state it leaves; an
    exception keeps the effects made before it was raised. *)
Definition M (A : Type) : Type := State → Outcome A * State.

Definition ret {A} (a : A) : M A := λ σ, (Return a, σ).

Definition raise {A} (e : PyExn) : M A := λ σ, (Raise e, σ).

Definition bind {A B} (m : M A) (k : A → M B) : M B :=
  λ σ, match m σ with
       | (Return a, σ') => k a σ'
       | (Raise e, σ') => (Raise e, σ')
       end.

Declare Scope py_scope.
Delimit Scope py_scope with py.
Notation "x <- m ;; k" := (bind m (λ x, k))
  (at level 100, m at next level, right associativity) : py_scope.
Notation "m ;; k" := (bind m (λ _, k))
  (at level 100, right associativity) : py_scope.
Local Open Scope py_scope.

(** [self]: the agent a method runs on. *)
Definition self : M Agent := λ σ, (Return (agent σ), σ).

Definition upd_agent (f : Agent → Agent) : M unit :=
  λ σ, (Return tt, {| agent := f (agent σ); world := world σ |}).

Definition upd_world (f : World → World) : M unit :=
  λ σ, (Return tt, {| agent := agent σ; world := f (world σ) |}).

(** Outcome and final state of a run. *)
Definition outcome_of {A} (m : M A) (σ : State) : Outcome A := fst (m σ).
Definition state_after {A} (m : M A) (σ : State) : State := snd (m σ).

(** *** Attribute assignment *)

Definition set_clock (c : TrainClock) (a : Agent) : Agent :=
  {| log_dir := log_dir a; model_dir := model_dir a; clock := c;
     device := device a; batch_size := batch_size a; net := net a;
     criterion := criterion a;
     optimizer := optimizer a; scheduler := scheduler a;
     train_tb := train_tb a; val_tb := val_tb a |}.

Definition set_net (n : Net) (a : Agent) : Agent :=
  {| log_dir := log_dir a; model_dir := model_dir a; clock := clock a;
     device := device a; batch_size := batch_size a; net := n;
     criterion := criterion a;
     optimizer := optimizer a; scheduler := scheduler a;
     train_tb := train_tb a; val_tb := val_tb a |}.

Definition set_optimizer_attr (o : Optimizer) (a : Agent) : Agent :=
  {| log_dir := log_dir a; model_dir := model_dir a; clock := clock a;
     device := device a; batch_size := batch_size a; net := net a;
     criterion := criterion a;
     optimizer := o; scheduler := scheduler a;
     train_tb := train_tb a; val_tb := val_tb a |}.

Definition set_scheduler (s : StepLR) (a : Agent) : Agent :=
  {| log_dir := log_dir a; model_dir := model_dir a; clock := clock a;
     device := device a; batch_size := batch_size a; net := net a;
     criterion := criterion a;
     optimizer := optimizer a; scheduler := s;
     train_tb := train_tb a; val_tb := val_tb a |}.

Definition set_train_tb (w : list Scalar) (a : Agent) : Agent :=
  {| log_dir := log_dir a; model_dir := model_dir a; clock := clock a;
     device := device a; batch_size := batch_size a; net := net a;
     criterion := criterion a;
     optimizer := optimizer a; scheduler := scheduler a;
     train_tb := w; val_tb := val_tb a |}.

Definition set_val_tb (w : list Scalar) (a : Agent) : Agent :=
  {| log_dir := log_dir a; model_dir := model_dir a; clock := clock a;
     device := device a; batch_size := batch_size a; net := net a;
     criterion := criterion a;
     optimizer := optimizer a; scheduler := scheduler a;
     train_tb := train_tb a; val_tb := w |}.

Definition set_module (m : Module) (n : Net) : Net :=
  {| data_parallel := data_parallel n; module := m |}.

Definition upd_module (f : Module → Module) : M unit :=
  upd_agent (λ a, set_net (set_module (f (module (net a))) (net a)) a).

Definition set_files (f : gmap string Checkpoint) (w : World) : World :=
  {| files := f; unwritable := unwritable w;
     save_error := save_error w; stdout := stdout w;
     grad_enabled := grad_enabled w; torch_calls := torch_calls w |}.

Definition set_stdout (o : list string) (w : World) : World :=
  {| files := files w; unwritable := unwritable w;
     save_error := save_error w; stdout := o;
     grad_enabled := grad_enabled w; torch_calls := torch_calls w |}.

Definition set_grad_enabled (b : bool) (w : World) : World :=
  {| files := files w; unwritable := unwritable w;
     save_error := save_error w; stdout := stdout w;
     grad_enabled := b; torch_calls := torch_calls w |}.

Definition set_torch_calls (l : list TorchCall) (w : World) : World :=
  {| files := files w; unwritable := unwritable w;
     save_error := save_error w; stdout := stdout w;
     grad_enabled := grad_enabled w; torch_calls := l |}.

Definition log_call (c : TorchCall) : M unit :=
  upd_world (λ w, set_torch_calls (torch_calls w ++ [c]) w).

(** ** The collaborators' methods *)

(** [print(s)]. *)
Definition print (s : string) : M unit :=
  upd_world (λ w, set_stdout (stdout w ++ [s]) w).

(** [os.path.exists(path)]. *)
Definition os_path_exists (path : string) : M bool :=
  λ σ, (Return (bool_decide (is_Some (files (world σ) !! path))), σ).

(** [torch.save(obj, path)]: when the path cannot be opened for writing
    it raises (which exception depends on the cause and on the library's
    version); otherwise it replaces the file. *)
Definition torch_save (obj : Checkpoint) (path : string) : M unit :=
  λ σ, if bool_decide (path ∈ unwritable (world σ))
       then (Raise (save_error (world σ) path), σ)
       else upd_world (λ w, set_files (<[path := obj]> (files w)) w) σ.

(** [torch.load(path)]. *)
Definition torch_load (path : string) : M Checkpoint :=
  λ σ, match files (world σ) !! path with
       | Some c => (Return c, σ)
       | None => (Raise (OSError path), σ)
       end.

(** [Module.cpu()], [Module.cuda()], [Module.train()], [Module.eval()]. *)
Definition Module_cpu (m : Module) : Module :=
  {| params := params m; grads := grads m; residency := Host;
     training := training m |}.

Definition Module_cuda (m : Module) : Module :=
  {| params := params m; grads := grads m; residency := Cuda;
     training := training m |}.

Definition Module_train (m : Module) : Module :=
  {| params := params m; grads := grads m; residency := residency m;
     training := true |}.

Definition Module_eval (m : Module) : Module :=
  {| params := params m; grads := grads m; residency := residency m;
     training := false |}.

(** [Module.state_dict()]. *)
Definition Module_state_dict (m : Module) : StateDict :=
  {| sd_device := residency m; sd_values := params m |}.

(** The copy [load_state_dict] makes: every parameter the dictionary has
    a value for takes that value, the others keep theirs. *)
Fixpoint copy_values (values ps : list Q) : list Q :=
  match values, ps with
  | v :: values', _ :: ps' => v :: copy_values values' ps'
  | _, _ => ps
  end.

(** [Module.load_state_dict(sd)]: the values are copied into the existing
    parameters, which stay where they are.  A dictionary of another shape
    is refused with a [RuntimeError], raised after the copy of what
    matches; the library's message goes on to name the module and the keys
    at fault, of which the model keeps the opening words. *)
Definition Module_load_state_dict (sd : StateDict) (m : Module)
  : Outcome unit * Module :=
  let m' := {| params := copy_values (sd_values sd) (params m); grads := grads m;
               residency := residency m; training := training m |} in
  if bool_decide (length (sd_values sd) = length (params m))
  then (Return tt, m')
  else (Raise (RuntimeError "Error(s) in loading state_dict"), m').

(** The same calls made on [self.net]; a [DataParallel] wrapper passes
    them on to the module it wraps. *)
Definition net_cpu : M unit := upd_module Module_cpu.
Definition net_cuda : M unit := upd_module Module_cuda.
Definition net_train : M unit := upd_module Module_train.
Definition net_eval : M unit := upd_module Module_eval.

Definition net_state_dict : M StateDict :=
  a <- self ;; ret (Module_state_dict (module (net a))).

Definition net_load_state_dict (sd : StateDict) : M unit :=
  a <- self ;;
  let '(r, m) := Module_load_state_dict sd (module (net a)) in
  upd_module (λ _, m) ;;
  match r with
  | Return _ => ret tt
  | Raise e => raise e
  end.

(** [Optimizer.state_dict()] and [Optimizer.load_state_dict(d)]; loading
    refuses a dictionary with another number of parameter groups. *)
Definition Optimizer_state_dict (o : Optimizer) : OptimizerDict :=
  {| od_state := opt_state o; od_param_groups := param_groups o |}.

Definition optimizer_load_state_dict (d : OptimizerDict) : M unit :=
  a <- self ;;
  if bool_decide (length (od_param_groups d) = length (param_groups (optimizer a)))
  then upd_agent (set_optimizer_attr
                    {| param_groups := od_param_groups d; opt_state := od_state d |})
  else raise (ValueError "loaded state dict has a different number of parameter groups").

(** [scheduler.state_dict()] and [scheduler.load_state_dict(d)]: the
    attributes are copied out and written back. *)
Definition StepLR_state_dict (s : StepLR) : StepLR := s.

Definition scheduler_load_state_dict (d : StepLR) : M unit :=
  upd_agent (set_scheduler d).

(** [param_groups[-1]]. *)
Definition last_group (l : list ParamGroup) : M ParamGroup :=
  match last l with
  | Some g => ret g
  | None => raise (IndexError "list index out of range")
  end.

(** [for param_group, lr in zip(param_groups, lrs): param_group['lr'] = lr]. *)
Fixpoint assign_lrs (groups : list ParamGroup) (lrs : list Q) : list ParamGroup :=
  match groups, lrs with
  | g :: groups', l :: lrs' =>
      {| lr := l; initial_lr := initial_lr g |} :: assign_lrs groups' lrs'
  | _, _ => groups
  end.

(** [StepLR.get_lr()] at [last_epoch]:
    [base_lr * gamma ** (last_epoch // step_size)] for each base rate. *)
Definition StepLR_get_lr (s : StepLR) : Outcome (list Q) :=
  if bool_decide (step_size s = 0)
  then Raise (ZeroDivisionError "integer division or modulo by zero")
  else Return (map (λ base_lr, (base_lr * gamma s ^ (last_epoch s / step_size s))%Q)
                   (base_lrs s)).

(** [scheduler.step(epoch)]: with no argument the scheduler moves to the
    epoch after its own; with an argument it moves to that epoch.  The
    rates it computes are written into the optimizer's groups. *)
Definition scheduler_step (epoch : option Z) : M unit :=
  a <- self ;;
  let e := match epoch with
           | None => last_epoch (scheduler a) + 1
           | Some e => e
           end in
  let s := {| step_size := step_size (scheduler a); gamma := gamma (scheduler a);
              base_lrs := base_lrs (scheduler a); last_epoch := e |} in
  upd_agent (set_scheduler s) ;;
  match StepLR_get_lr s with
  | Raise e => raise e
  | Return lrs =>
      upd_agent (λ a, set_optimizer_attr
                        {| param_groups := assign_lrs (param_groups (optimizer a)) lrs;
                           opt_state := opt_state (optimizer a) |} a)
  end.

(** [SummaryWriter.add_scalar(tag, value, global_step)] on one of the
    agent's two writers. *)
Inductive WriterRef := TrainTb | ValTb.

Definition add_scalar (tb : WriterRef) (tag : string) (v : Q) (global_step : Z) : M unit :=
  let entry := {| sc_tag := tag; sc_value := v; sc_step := global_step |} in
  match tb with
  | TrainTb => upd_agent (λ a, set_train_tb (train_tb a ++ [entry]) a)
  | ValTb => upd_agent (λ a, set_val_tb (val_tb a ++ [entry]) a)
  end.

Definition writer (tb : WriterRef) (a : Agent) : list Scalar :=
  match tb with
  | TrainTb => train_tb a
  | ValTb => val_tb a
  end.

(** [optimizer.zero_grad()]: the parameters' gradients are cleared. *)
Definition optimizer_zero_grad : M unit :=
  upd_module (λ m, {| params := params m; grads := None;
                      residency := residency m; training := training m |}) ;;
  log_call CallZeroGrad.

(** [loss.backward()]: the loss's gradient is accumulated into the
    parameters' gradients.  The integer [sum] returns for an empty
    dictionary has no such method, and a tensor outside the autograd graph
    cannot be differentiated. *)
Definition backward (loss : PyNum) : M unit :=
  match loss with
  | NumInt _ => raise (AttributeError "'int' object has no attribute 'backward'")
  | NumTensor t =>
      match t_grad t with
      | None => raise (RuntimeError "element 0 of tensors does not require grad and does not have a grad_fn")
      | Some g =>
          upd_module (λ m, {| params := params m; grads := grad_add (grads m) (Some g);
                              residency := residency m; training := training m |}) ;;
          log_call (CallBackward t)
      end
  end.

(** [with torch.no_grad(): body]: gradient tracking is off inside the
    block and back to what it was on every way out. *)
Definition no_grad {A} (body : M A) : M A :=
  λ σ, let prev := grad_enabled (world σ) in
       let '(r, σ') := body {| agent := agent σ;
                               world := set_grad_enabled false (world σ) |} in
       (r, {| agent := agent σ'; world := set_grad_enabled prev (world σ') |}).

(** ** What the file imports and does not define *)

(** The network factory of [networks], the initial clock of [utils], the
    constructors of the optimizer, the scheduler and the writers, the
    move to the device at construction, and the optimizer's update rule.
    The agent only calls them; every statement below holds whatever they
    compute.  Each constructor may raise: the factory on a configuration it
    cannot serve, [.cuda()] where no device is present ([device_error]
    holds what it raises then), the optimizer and the scheduler on values
    they refuse, a writer on a directory it cannot open. *)
Class External := {
  get_network : Config → Outcome Net;
  TrainClock_new : TrainClock;
  device_error : option PyExn;
  optim_Adam : list Q → Q → Outcome Optimizer;
  lr_scheduler_StepLR : Optimizer → Z → Outcome (Optimizer * StepLR);
  SummaryWriter_error : string → option PyExn;
  optimizer_rule : Optimizer → list Q → list Q → Optimizer * list Q
}.

(** [optimizer.step()]: the update rule is applied to the parameters and
    their gradient; parameters without a gradient are left alone. *)
Definition optimizer_step `{External} : M unit :=
  a <- self ;;
  let m := module (net a) in
  match grads m with
  | None => ret tt
  | Some g =>
      let '(o', p') := optimizer_rule (optimizer a) (params m) g in
      upd_agent (set_optimizer_attr o') ;;
      upd_module (λ m, {| params := p'; grads := grads m;
                          residency := residency m; training := training m |})
  end ;;
  log_call (CallOptimizerStep (grads m)).

(** ** BaseAgent *)

Definition Data := list Q.
Definition Outputs := list Q.

(** What a [forward] hands back: [None] when its body is [pass], or the
    pair of outputs and losses. *)
Inductive ForwardResult :=
  | FwdNone
  | FwdPair (outputs : Outputs) (losses : LossDict).

(** The methods a subclass supplies. *)
Record AgentClass := {
  build_net : Config → Outcome Net;
  forward : Data → M ForwardResult;
  visualize_batch : Data → WriterRef → M unit
}.

(** [BaseAgent]: [build_net] and [visualize_batch] raise, [forward] is
    [pass]. *)
Definition BaseAgent : AgentClass :=
  {| build_net := λ _, Raise NotImplementedError;
     forward := λ _, ret FwdNone;
     visualize_batch := λ _ _, raise NotImplementedError |}.

(** [MyAgent(BaseAgent)]: [build_net] asks the factory, [forward] is
    [pass], [visualize_batch] is inherited. *)
Definition MyAgent `{External} : AgentClass :=
  {| build_net := λ config, get_network config;
     forward := λ _, ret FwdNone;
     visualize_batch := visualize_batch BaseAgent |}.

(** [set_loss_function]: the loss function used in training. *)
Definition set_loss_function : Criterion := MSELoss.

(** [set_optimizer]: the optimizer over the network's parameters at the
    configured rate, and the step scheduler on it. *)
Definition set_optimizer `{External} (n : Net) (config : Config)
  : Outcome (Optimizer * StepLR) :=
  match optim_Adam (params (module n)) (cfg_lr config) with
  | Raise e => Raise e
  | Return o => lr_scheduler_StepLR o (cfg_lr_step_size config)
  end.

(** [SummaryWriter(path)]: a writer without entries, unless it raises. *)
Definition SummaryWriter `{External} (path : string) : Outcome (list Scalar) :=
  match SummaryWriter_error path with
  | Some e => Raise e
  | None => Return []
  end.

(** [BaseAgent.__init__]: the built network is moved to the device, the
    loss function, the optimizer and the scheduler are set, and the two
    writers are opened under the log directory.  An exception of any of
    these steps ends the construction. *)
Definition init `{External} (cls : AgentClass) (config : Config) (w : World)
  : Outcome State :=
  match build_net cls config with
  | Raise e => Raise e
  | Return n =>
      match device_error with
      | Some e => Raise e
      | None =>
          let n := set_module (Module_cuda (module n)) n in
          match set_optimizer n config with
          | Raise e => Raise e
          | Return (o, s) =>
              match SummaryWriter (path_join (cfg_log_dir config) "train.events") with
              | Raise e => Raise e
              | Return train =>
                  match SummaryWriter (path_join (cfg_log_dir config) "val.events") with
                  | Raise e => Raise e
                  | Return val =>
                      Return {| agent := {| log_dir := cfg_log_dir config;
                                            model_dir := cfg_model_dir config;
                                            clock := TrainClock_new;
                                            device := cfg_device config;
                                            batch_size := cfg_batch_size config;
                                            net := n; criterion := set_loss_function;
                                            optimizer := o; scheduler := s;
                                            train_tb := train; val_tb := val |};
                                world := w |}
                  end
              end
          end
      end
  end.

(** [get_agent(config)]: a [MyAgent]. *)
Definition get_agent `{External} (config : Config) (w : World) : Outcome State :=
  init MyAgent config w.

(** The path [save_ckpt] writes. *)
Definition save_path (a : Agent) (name : PyObj) : string :=
  match name with
  | PyNone =>
      path_join (model_dir a)
                ("ckpt_epoch" +:+ py_str (PyInt (epoch (clock a))) +:+ ".pth")
  | _ => path_join (model_dir a) (py_str name +:+ ".pth")
  end.

Definition save_ckpt (name : PyObj) : M unit :=
  a <- self ;;
  let path := save_path a name in
  (if data_parallel (net a) then
     let clock_d := make_checkpoint (clock a) in
     upd_module Module_cpu ;;
     model_d <- net_state_dict ;;
     a' <- self ;;
     torch_save {| ck_clock := clock_d;
                   ck_model_state_dict := model_d;
                   ck_optimizer_state_dict := Optimizer_state_dict (optimizer a');
                   ck_scheduler_state_dict := StepLR_state_dict (scheduler a') |}
                path
   else
     let clock_d := make_checkpoint (clock a) in
     net_cpu ;;
     model_d <- net_state_dict ;;
     a' <- self ;;
     torch_save {| ck_clock := clock_d;
                   ck_model_state_dict := model_d;
                   ck_optimizer_state_dict := Optimizer_state_dict (optimizer a');
                   ck_scheduler_state_dict := StepLR_state_dict (scheduler a') |}
                path) ;;
  print ("Checkpoint saved at " +:+ path) ;;
  net_cuda.

(** The name and the path [load_ckpt] resolves. *)
Definition load_name (name : PyObj) : PyObj :=
  if py_eq_str name "latest" then name
  else PyStr ("ckpt_epoch" +:+ py_str name).

Definition load_path (a : Agent) (name : PyObj) : string :=
  path_join (model_dir a) (py_str (load_name name) +:+ ".pth").

Definition load_ckpt (name : PyObj) : M unit :=
  a <- self ;;
  let path := load_path a name in
  found <- os_path_exists path ;;
  if negb found then
    raise (ValueError ("Checkpoint " +:+ path +:+ " not exists."))
  else
    checkpoint <- torch_load path ;;
    print ("Checkpoint loaded from " +:+ path) ;;
    (if data_parallel (net a)
     then net_load_state_dict (ck_model_state_dict checkpoint)
     else net_load_state_dict (ck_model_state_dict checkpoint)) ;;
    optimizer_load_state_dict (ck_optimizer_state_dict checkpoint) ;;
    scheduler_load_state_dict (ck_scheduler_state_dict checkpoint) ;;
    a' <- self ;;
    upd_agent (set_clock (restore_checkpoint (clock a') (ck_clock checkpoint))).

Definition update_network `{External} (loss_dict : LossDict) : M unit :=
  let loss := py_sum (map NumTensor (dict_values loss_dict)) in
  optimizer_zero_grad ;;
  backward loss ;;
  optimizer_step.

Definition update_learning_rate : M unit :=
  a <- self ;;
  g <- last_group (param_groups (optimizer a)) ;;
  add_scalar TrainTb "learning_rate" (lr g) (epoch (clock a)) ;;
  scheduler_step (Some (epoch (clock a))).

(** [for k, v in items: body]. *)
Fixpoint for_each {A} (l : list A) (body : A → M unit) : M unit :=
  match l with
  | [] => ret tt
  | x :: l' => body x ;; for_each l' body
  end.

Definition record_losses (loss_dict : LossDict) (mode : string) : M unit :=
  let losses_values := map (λ kv, (fst kv, t_value (snd kv))) loss_dict in
  let tb := if bool_decide (mode = "train") then TrainTb else ValTb in
  for_each losses_values
    (λ kv, a <- self ;; add_scalar tb (fst kv) (snd kv) (step (clock a))).

(** [outputs, losses = r]. *)
Definition unpack (r : ForwardResult) : M (Outputs * LossDict) :=
  match r with
  | FwdNone => raise (TypeError "cannot unpack non-iterable NoneType object")
  | FwdPair outputs losses => ret (outputs, losses)
  end.

Definition train_func `{External} (cls : AgentClass) (data : Data)
  : M (Outputs * LossDict) :=
  net_train ;;
  r <- forward cls data ;;
  ol <- unpack r ;;
  update_network (snd ol) ;;
  record_losses (snd ol) "train" ;;
  ret ol.

Definition val_func (cls : AgentClass) (data : Data) : M (Outputs * LossDict) :=
  net_eval ;;
  ol <- no_grad (r <- forward cls data ;; unpack r) ;;
  record_losses (snd ol) "validation" ;;
  ret ol.

(** ** What a completed call leaves behind *)

(** The record [save_ckpt] hands to [torch.save]: the model's state
    dictionary is taken after the move to host memory. *)
Definition saved_checkpoint (a : Agent) : Checkpoint :=
  {| ck_clock := make_checkpoint (clock a);
     ck_model_state_dict :=
       Module_state_dict (Module_cpu (module (net a)));
     ck_optimizer_state_dict := Optimizer_state_dict (optimizer a);
     ck_scheduler_state_dict := StepLR_state_dict (scheduler a) |}.

(** The attributes after [load_ckpt] has restored a checkpoint. *)
Definition loaded_agent (c : Checkpoint) (a : Agent) : Agent :=
  {| log_dir := log_dir a; model_dir := model_dir a;
     clock := restore_checkpoint (clock a) (ck_clock c);
     device := device a; batch_size := batch_size a;
     net := set_module {| params := sd_values (ck_model_state_dict c);
                          grads := grads (module (net a));
                          residency := residency (module (net a));
                          training := training (module (net a)) |} (net a);
     criterion := criterion a;
     optimizer := {| param_groups := od_param_groups (ck_optimizer_state_dict c);
                     opt_state := od_state (ck_optimizer_state_dict c) |};
     scheduler := ck_scheduler_state_dict c;
     train_tb := train_tb a; val_tb := val_tb a |}.

(** Entries appended to one of the two writers. *)
Definition extend_writer (tb : WriterRef) (l : list Scalar) (a : Agent) : Agent :=
  match tb with
  | TrainTb => set_train_tb (train_tb a ++ l) a
  | ValTb => set_val_tb (val_tb a ++ l) a
  end.

(** The writer [record_losses] picks for a mode, and the entry it writes
    for a loss term at a given step. *)
Definition mode_writer (mode : string) : WriterRef :=
  if bool_decide (mode = "train") then TrainTb else ValTb.

Definition loss_entry (global_step : Z) (kv : string * Tensor) : Scalar :=
  {| sc_tag := fst kv; sc_value := t_value (snd kv); sc_step := global_step |}.

(** Some loss term is attached to the autograd graph. *)
Definition has_grad (d : LossDict) : Prop :=
  Exists (λ kv, is_Some (t_grad (snd kv))) d.

(** ** The specification's reading of the summed loss *)

(** The sum of all loss term values, as the specification words it. *)
Definition spec_total_loss (d : LossDict) : Q :=
  fold_right Qplus 0%Q (map t_value (dict_values d)).

(** The gradient of that sum: the loss terms' gradients added up. *)
Definition spec_total_grad (d : LossDict) : option (list Q) :=
  fold_left grad_add (map t_grad (dict_values d)) None.

(** How often a tag occurs among writer entries. *)
Definition count_tag (k : string) (l : list Scalar) : nat :=
  length (filter (λ e, sc_tag e = k) l).

(** How many optimizer steps a record of calls holds. *)
Definition is_step (c : TorchCall) : bool :=
  match c with
  | CallOptimizerStep _ => true
  | _ => false
  end.

Definition count_steps (l : list TorchCall) : nat :=
  length (filter (λ c, is_step c = true) l).

(** A [forward] that only reads: it leaves the agent and the world as it
    found them, and hands its results back in its return value. *)
Definition forward_readonly (cls : AgentClass) : Prop :=
  ∀ data σ, state_after (forward cls data) σ = σ.

(** The specification's example dictionary [{"a": 1.0, "b": 2.0}], each
    term with its gradient over the parameters. *)
Definition loss_ab (ga gb : list Q) : LossDict :=
  [("a", {| t_value := 1%Q; t_grad := Some ga |});
   ("b", {| t_value := 2%Q; t_grad := Some gb |})].

(** ** A sample instantiation, for running the methods *)

Module Sample.

Definition sample_net : Net :=
  {| data_parallel := false;
     module := {| params := [1#2; 3#1]%Q; grads := None;
                  residency := Host; training := true |} |}.

(** Plain gradient descent with the first group's rate. *)
Fixpoint descend (rate : Q) (p g : list Q) : list Q :=
  match p, g with
  | x :: p', y :: g' => (x - rate * y)%Q :: descend rate p' g'
  | _, _ => p
  end.

Definition sample_external : External :=
  {| get_network := λ _, Return sample_net;
     TrainClock_new := {| epoch := 1; step := 0 |};
     device_error := None;
     optim_Adam := λ _ rate,
       if Qle_bool 0 rate
       then Return {| param_groups := [{| lr := rate; initial_lr := rate |}];
                      opt_state := [] |}
       else Raise (ValueError "Invalid learning rate");
     lr_scheduler_StepLR := λ o n,
       if bool_decide (n = 0)
       then Raise (ZeroDivisionError "integer division or modulo by zero")
       else Return (o, {| step_size := n; gamma := (1#10)%Q;
                          base_lrs := map initial_lr (param_groups o);
                          last_epoch := 0 |});
     SummaryWriter_error := λ _, None;
     optimizer_rule := λ o p g,
       (o, descend (match param_groups o with
                    | g0 :: _ => lr g0
                    | [] => 0%Q
                    end) p g) |}.

Definition sample_config : Config :=
  {| cfg_log_dir := "log"; cfg_model_dir := "model"; cfg_device := "cuda:0";
     cfg_batch_size := 8; cfg_lr := (1#100)%Q; cfg_lr_step_size := 10 |}.

Definition empty_world : World :=
  {| files := ∅; unwritable := ∅;
     save_error := λ path, RuntimeError ("File " +:+ path +:+ " cannot be opened.");
     stdout := []; grad_enabled := true; torch_calls := [] |}.

(** The state [MyAgent(sample_config)] starts in. *)
Definition sample_state : State :=
  {| agent := {| log_dir := "log"; model_dir := "model";
                 clock := {| epoch := 1; step := 0 |};
                 device := "cuda:0"; batch_size := 8;
                 net := {| data_parallel := false;
                           module := {| params := [1#2; 3#1]%Q; grads := None;
                                        residency := Cuda; training := true |} |};
                 criterion := MSELoss;
                 optimizer := {| param_groups :=
                                   [{| lr := (1#100)%Q; initial_lr := (1#100)%Q |}];
                                 opt_state := [] |};
                 scheduler := {| step_size := 10; gamma := (1#10)%Q;
                                 base_lrs := [(1#100)%Q]; last_epoch := 0 |};
                 train_tb := []; val_tb := [] |};
     world := empty_world |}.

(** The same agent later in training: epoch 5, step 40. *)
Definition later_state : State :=
  {| agent := set_clock {| epoch := 5; step := 40 |} (agent sample_state);
     world := world sample_state |}.

(** The same agent with its network left in evaluation mode. *)
Definition eval_state : State :=
  state_after net_eval later_state.

(** That agent after [save_ckpt()]. *)
Definition saved_state : State := state_after (save_ckpt PyNone) later_state.

(** The fresh agent after [save_ckpt("best")]. *)
Definition best_state : State := state_after (save_ckpt (PyStr "best")) sample_state.

(** A subclass whose [forward] returns its input and one loss term
    ["mse"], as the commented body of [MyAgent.forward] would. *)
Definition mse_forward (data : Data) : M ForwardResult :=
  λ σ, (Return (FwdPair data
                  [("mse", {| t_value := (1#4)%Q;
                              t_grad := if grad_enabled (world σ)
                                        then Some [1#1; (-1)#2]%Q else None |})]),
        σ).

Definition MseAgent : AgentClass :=
  {| build_net := build_net (@MyAgent sample_external);
     forward := mse_forward;
     visualize_batch := visualize_batch BaseAgent |}.

End Sample.

(** ** What the training methods leave alone *)

(** Two states agree on what checkpointing depends on: the clock, where
    the parameters reside, the model directory, the checkpoint files and
    the lines [print] has written. *)
Definition keeps_checkpoint_frame (σ σ' : State) : Prop :=
  clock (agent σ') = clock (agent σ)
  ∧ residency (module (net (agent σ'))) = residency (module (net (agent σ)))
  ∧ model_dir (agent σ') = model_dir (agent σ)
  ∧ files (world σ') = files (world σ)
  ∧ stdout (world σ') = stdout (world σ).

(** ** Further sample states *)

Module Scenarios.

(** The fresh sample agent on a disk where [model/best.pth] cannot be
    written. *)
Definition readonly_state : State :=
  {| agent := agent Sample.sample_state;
     world := {| files := ∅; unwritable := {["model/best.pth"]};
                 save_error := save_error Sample.empty_world; stdout := [];
                 grad_enabled := true; torch_calls := [] |} |}.

(** The fresh sample agent after [save_ckpt("latest")], the same agent at
    epoch 7, and its state after a second [save_ckpt("latest")]. *)
Definition latest_state : State :=
  state_after (save_ckpt (PyStr "latest")) Sample.sample_state.

Definition later_latest : State :=
  {| agent := set_clock {| epoch := 7; step := 60 |} (agent latest_state);
     world := world latest_state |}.

Definition relatest_state : State :=
  state_after (save_ckpt (PyStr "latest")) later_latest.

(** The fresh sample agent after [save_ckpt()] at epoch 1, the same agent
    at epoch 5, and its state after [save_ckpt()] there. *)
Definition epoch1_state : State :=
  state_after (save_ckpt PyNone) Sample.sample_state.

Definition epoch5_state : State :=
  {| agent := set_clock {| epoch := 5; step := 40 |} (agent epoch1_state);
     world := world epoch1_state |}.

Definition both_epochs_state : State :=
  state_after (save_ckpt PyNone) epoch5_state.

(** The sample agent after [save_ckpt()] at epoch 5 and [load_ckpt(5)]. *)
Definition loaded_state : State :=
  state_after (load_ckpt (PyInt 5)) Sample.saved_state.

(** A checkpoint of a network of the same shape whose optimizer has two
    parameter groups, found as [latest.pth] by the sample agent. *)
Definition foreign_checkpoint : Checkpoint :=
  {| ck_clock := {| cd_epoch := 9; cd_step := 90 |};
     ck_model_state_dict := {| sd_device := Host; sd_values := [7#1; 8#1]%Q |};
     ck_optimizer_state_dict :=
       {| od_state := [];
          od_param_groups := [{| lr := (1#10)%Q; initial_lr := (1#10)%Q |};
                              {| lr := (1#20)%Q; initial_lr := (1#20)%Q |}] |};
     ck_scheduler_state_dict := {| step_size := 3; gamma := (1#2)%Q;
                                   base_lrs := [(1#10)%Q; (1#20)%Q];
                                   last_epoch := 9 |} |}.

Definition foreign_state : State :=
  {| agent := agent Sample.later_state;
     world := {| files := {["model/latest.pth" := foreign_checkpoint]};
                 unwritable := ∅; save_error := save_error Sample.empty_world;
                 stdout := []; grad_enabled := true;
                 torch_calls := [] |} |}.

(** A checkpoint of a wider network, three values for the sample agent's
    two parameters, found as [latest.pth]. *)
Definition wide_checkpoint : Checkpoint :=
  {| ck_clock := {| cd_epoch := 9; cd_step := 90 |};
     ck_model_state_dict := {| sd_device := Host; sd_values := [7#1; 8#1; 9#1]%Q |};
     ck_optimizer_state_dict :=
       {| od_state := [];
          od_param_groups := [{| lr := (1#10)%Q; initial_lr := (1#10)%Q |}] |};
     ck_scheduler_state_dict := {| step_size := 3; gamma := (1#2)%Q;
                                   base_lrs := [(1#10)%Q]; last_epoch := 9 |} |}.

Definition wide_state : State :=
  {| agent := agent Sample.later_state;
     world := {| files := {["model/latest.pth" := wide_checkpoint]};
                 unwritable := ∅; save_error := save_error Sample.empty_world;
                 stdout := []; grad_enabled := true;
                 torch_calls := [] |} |}.

(** The sample agent after its save of [best] has failed on the disk where
    that file cannot be written, and after a following [save_ckpt("latest")]. *)
Definition stranded_state : State :=
  state_after (save_ckpt (PyStr "best")) readonly_state.

Definition recovered_state : State :=
  state_after (save_ckpt (PyStr "latest")) stranded_state.

(** A loss term outside the autograd graph. *)
Definition detached_loss : LossDict :=
  [("a", {| t_value := 1%Q; t_grad := None |})].

End Scenarios.

(** * Properties *)

(** ** Strings and paths *)

Lemma string_length_app (a b : string) :
  String.length (a +:+ b) = (String.length a + String.length b)%nat.
Proof. induction a as [|c a IH]; simpl; [done | by rewrite IH]. Qed.

(** Two relative file names joined to one directory give one path only
    when they are the same name. *)
Lemma path_join_relative (d f1 f2 : string) :
  startswith_sep f1 = false → startswith_sep f2 = false →
  path_join d f1 = path_join d f2 → f1 = f2.
Proof.
  unfold path_join. intros -> ->.
  destruct (bool_decide (d = "") || endswith_sep d); intros Heq.
  - by apply (inj (String.append d)) in Heq.
  - apply (inj (String.append d)) in Heq. by simplify_eq/=.
Qed.

(** A name and the same name behind [ckpt_epoch] never join to one path:
    the second path is longer. *)
Lemma explicit_paths_differ (d s : string) :
  path_join d (s +:+ ".pth") ≠ path_join d (("ckpt_epoch" +:+ s) +:+ ".pth").
Proof.
  unfold path_join.
  change (startswith_sep (("ckpt_epoch" +:+ s) +:+ ".pth")) with false. simpl.
  intros Heq. apply (f_equal String.length) in Heq.
  destruct (startswith_sep (s +:+ ".pth")), (bool_decide (d = "") || endswith_sep d);
    simpl in Heq; rewrite ?string_length_app in Heq; simpl in Heq;
    rewrite ?string_length_app in Heq; simpl in Heq; lia.
Qed.

(** The decimal rendering of a positive number opens with a digit. *)
Lemma pretty_N_go_head (x : N) (s : string) :
  (0 < x)%N → ∃ d rest, pretty_N_go x s = String (pretty_N_char d) rest.
Proof.
  revert s. induction (N.lt_wf_0 x) as [x _ IH]. intros s Hpos.
  rewrite pretty_N_go_step by done.
  destruct (decide (x `div` 10 = 0)%N) as [Hz | Hnz].
  - rewrite Hz, pretty_N_go_0. eauto.
  - apply IH; [by apply N.div_lt | by apply N.neq_0_lt_0].
Qed.

Lemma pretty_Z_head (z : Z) :
  ∃ c rest, pretty z = String c rest ∧ (c = "-"%char ∨ ∃ d, c = pretty_N_char d).
Proof.
  destruct z as [|p|p]; unfold pretty, pretty_Z.
  - exists "0"%char, "". split; [done | right; by exists 0%N].
  - unfold pretty, pretty_positive, pretty, pretty_N.
    destruct (decide (N.pos p = 0)%N) as [|_]; [done|].
    destruct (pretty_N_go_head (N.pos p) "") as (d & rest & ->); [lia|].
    exists (pretty_N_char d), rest. eauto.
  - exists "-"%char, (pretty p). split; [done | by left].
Qed.

Lemma pretty_N_char_not_N (d : N) : pretty_N_char d ≠ "N"%char.
Proof. unfold pretty_N_char. by repeat case_match. Qed.

(** No integer prints as [None]. *)
Lemma pretty_Z_not_None (z : Z) (s : string) : pretty z +:+ s ≠ "None" +:+ s.
Proof.
  destruct (pretty_Z_head z) as (c & rest & -> & [-> | [d ->]]); simpl.
  - discriminate.
  - intros Heq. injection Heq as Hc _. by apply pretty_N_char_not_N in Hc.
Qed.

Lemma load_name_explicit (n : PyObj) :
  n ≠ PyStr "latest" → load_name n = PyStr ("ckpt_epoch" +:+ py_str n).
Proof.
  intros Hn. unfold load_name, py_eq_str. destruct n as [|s|z]; try done.
  case_bool_decide; [by subst | done].
Qed.

(** ** Checkpoints: what [save_ckpt] and [load_ckpt] compute *)

(** [save_ckpt] either fails in [torch.save], leaving the parameters in
    host memory, or writes the record, prints and moves them back. *)
Lemma save_ckpt_run (name : PyObj) (σ : State) :
  save_ckpt name σ =
    let a := agent σ in
    let path := save_path a name in
    if bool_decide (path ∈ unwritable (world σ))
    then (Raise (save_error (world σ) path),
          {| agent := set_net (set_module (Module_cpu (module (net a))) (net a)) a;
             world := world σ |})
    else (Return tt,
          {| agent := set_net (set_module (Module_cuda (module (net a))) (net a)) a;
             world := set_stdout (stdout (world σ) ++ ["Checkpoint saved at " +:+ path])
                        (set_files (<[path := saved_checkpoint a]> (files (world σ)))
                                   (world σ)) |}).
Proof.
  unfold save_ckpt, bind, self. simpl.
  destruct (data_parallel (net (agent σ))) eqn:Hdp;
    unfold torch_save, net_cpu, upd_module, upd_agent; simpl;
    case_bool_decide; simpl; reflexivity.
Qed.

(** From a completed save to the state it leaves. *)
Ltac completed_save H :=
  rewrite save_ckpt_run in H; simpl in H;
  case_bool_decide; [discriminate H|]; injection H as <-.

Lemma load_ckpt_missing (name : PyObj) (σ : State) :
  files (world σ) !! load_path (agent σ) name = None →
  load_ckpt name σ =
    (Raise (ValueError ("Checkpoint " +:+ load_path (agent σ) name +:+ " not exists.")), σ).
Proof.
  intros Hnone. unfold load_ckpt, bind, self, os_path_exists. simpl.
  rewrite Hnone. reflexivity.
Qed.

Lemma copy_values_length (values ps : list Q) :
  length (copy_values values ps) = length ps.
Proof.
  revert ps. induction values as [|v values IH]; intros [|x ps]; simpl; try done.
  by rewrite IH.
Qed.

(** A dictionary of the network's shape is copied whole. *)
Lemma copy_values_full (values ps : list Q) :
  length values = length ps → copy_values values ps = values.
Proof.
  revert ps. induction values as [|v values IH]; intros [|x ps]; simpl; try done.
  intros [= Hlen]. by rewrite IH.
Qed.

(** Where the dictionary has a value the parameter takes it; elsewhere
    it keeps its own. *)
Lemma copy_values_lookup (values ps : list Q) (i : nat) :
  copy_values values ps !! i
  = match ps !! i with
    | None => None
    | Some x => match values !! i with
                | Some v => Some v
                | None => Some x
                end
    end.
Proof.
  revert ps i. induction values as [|v values IH]; intros [|x ps] [|i]; simpl; try done.
  - by destruct (ps !! i).
Qed.

(** [load_ckpt], every way it ends. *)
Lemma load_ckpt_cases (name : PyObj) (σ : State) :
  load_ckpt name σ =
    let a := agent σ in
    let path := load_path a name in
    match files (world σ) !! path with
    | None => (Raise (ValueError ("Checkpoint " +:+ path +:+ " not exists.")), σ)
    | Some c =>
        let w := set_stdout (stdout (world σ) ++ ["Checkpoint loaded from " +:+ path])
                            (world σ) in
        let copied :=
          set_net (set_module
                     {| params := copy_values (sd_values (ck_model_state_dict c))
                                              (params (module (net a)));
                        grads := grads (module (net a));
                        residency := residency (module (net a));
                        training := training (module (net a)) |}
                     (net a)) a in
        if bool_decide (length (sd_values (ck_model_state_dict c))
                        = length (params (module (net a))))
        then
          if bool_decide (length (od_param_groups (ck_optimizer_state_dict c))
                          = length (param_groups (optimizer a)))
          then (Return tt, {| agent := loaded_agent c a; world := w |})
          else (Raise (ValueError "loaded state dict has a different number of parameter groups"),
                {| agent := copied; world := w |})
        else (Raise (RuntimeError "Error(s) in loading state_dict"),
              {| agent := copied; world := w |})
    end.
Proof.
  simpl. destruct (files (world σ) !! load_path (agent σ) name) as [c|] eqn:Hfile.
  - unfold load_ckpt, bind, self, os_path_exists, torch_load. simpl.
    rewrite Hfile. simpl.
    destruct (data_parallel (net (agent σ)));
      unfold net_load_state_dict, optimizer_load_state_dict, bind, self,
        Module_load_state_dict, upd_module, upd_agent; simpl; rewrite ?Hfile; simpl;
      (case_bool_decide as Hs; simpl; [|done]);
      (case_bool_decide; simpl; [|done]);
      unfold loaded_agent; by rewrite (copy_values_full _ _ Hs).
  - by apply load_ckpt_missing.
Qed.

Lemma load_ckpt_run (name : PyObj) (σ : State) (c : Checkpoint) :
  files (world σ) !! load_path (agent σ) name = Some c →
  length (sd_values (ck_model_state_dict c)) = length (params (module (net (agent σ)))) →
  length (od_param_groups (ck_optimizer_state_dict c))
    = length (param_groups (optimizer (agent σ))) →
  load_ckpt name σ =
    (Return tt,
     {| agent := loaded_agent c (agent σ);
        world := set_stdout (stdout (world σ)
                             ++ ["Checkpoint loaded from " +:+ load_path (agent σ) name])
                            (world σ) |}).
Proof.
  intros Hfile Hshape Hgroups. rewrite load_ckpt_cases. cbn zeta.
  by rewrite Hfile, (bool_decide_true _ Hshape), (bool_decide_true _ Hgroups).
Qed.

(** Moving parameters that are on the device to the device changes nothing. *)
Lemma set_module_cuda_id (a : Agent) :
  residency (module (net a)) = Cuda →
  set_net (set_module (Module_cuda (module (net a))) (net a)) a = a.
Proof.
  destruct a as [? ? ? ? ? [dp [p g r t]] ? ? ? ? ?]. simpl. by intros ->.
Qed.

(** Loading the record saved from [a] into any agent of the same shape
    brings back [a]'s clock, optimizer, scheduler and parameter values. *)
Lemma load_restores_saved (lname : PyObj) (a : Agent) (σ' : State) :
  files (world σ') !! load_path (agent σ') lname = Some (saved_checkpoint a) →
  length (params (module (net (agent σ')))) = length (params (module (net a))) →
  length (param_groups (optimizer (agent σ'))) = length (param_groups (optimizer a)) →
  ∃ σ2, load_ckpt lname σ' = (Return tt, σ2)
        ∧ clock (agent σ2) = clock a
        ∧ optimizer (agent σ2) = optimizer a
        ∧ scheduler (agent σ2) = scheduler a
        ∧ params (module (net (agent σ2))) = params (module (net a)).
Proof.
  intros Hfile Hshape Hgroups. eexists. split.
  - apply (load_ckpt_run _ _ _ Hfile); simpl; congruence.
  - simpl. split; [by destruct (clock a) |].
    split; [by destruct (optimizer a) | done].
Qed.

(** The constructor leaves the parameters on the device. *)
Lemma init_on_device `{External} (cls : AgentClass) (config : Config) (w : World)
    (σ : State) :
  init cls config w = Return σ → residency (module (net (agent σ))) = Cuda.
Proof.
  unfold init, SummaryWriter. destruct (build_net cls config) as [n|e]; [|done].
  destruct device_error; [done|].
  destruct (set_optimizer _ _) as [[o s]|e]; [|done].
  repeat (destruct (SummaryWriter_error _); [done|]). by intros [= <-].
Qed.

(** [load_ckpt] copies values into the parameters where they are: however
    it ends, they stay in the memory they were in. *)
Lemma load_ckpt_residency (name : PyObj) (σ : State) :
  residency (module (net (agent (state_after (load_ckpt name) σ))))
  = residency (module (net (agent σ))).
Proof.
  unfold state_after. rewrite load_ckpt_cases. cbn zeta.
  destruct (files (world σ) !! load_path (agent σ) name) as [c|]; [|done].
  repeat case_bool_decide; done.
Qed.

(** A save that fails in [torch.save] leaves them in host memory. *)
Lemma save_ckpt_failure_on_host (name : PyObj) (σ : State) (e : PyExn) :
  outcome_of (save_ckpt name) σ = Raise e →
  residency (module (net (agent (state_after (save_ckpt name) σ)))) = Host.
Proof.
  unfold outcome_of, state_after. rewrite save_ckpt_run. simpl.
  by case_bool_decide.
Qed.

Lemma sample_state_init :
  @get_agent Sample.sample_external Sample.sample_config Sample.empty_world
  = Return Sample.sample_state.
Proof. reflexivity. Qed.

(** ** Checkpoints: round trip, missing files, residency, names *)

(** C1.  Saving a checkpoint and loading it back under a name that
    resolves to the path written restores the clock, the optimizer and the
    scheduler of the state that was saved: at once after the save, and
    from any later state of an agent of the same shape while the file is
    the one written. *)
Theorem save_load_roundtrip (sname lname : PyObj) (σ σ1 : State) :
  save_ckpt sname σ = (Return tt, σ1) →
  load_path (agent σ1) lname = save_path (agent σ) sname →
  (∃ σ2, load_ckpt lname σ1 = (Return tt, σ2)
         ∧ clock (agent σ2) = clock (agent σ)
         ∧ optimizer (agent σ2) = optimizer (agent σ)
         ∧ scheduler (agent σ2) = scheduler (agent σ))
  ∧ (∀ σ' : State,
       load_path (agent σ') lname = save_path (agent σ) sname →
       files (world σ') !! save_path (agent σ) sname
         = files (world σ1) !! save_path (agent σ) sname →
       length (params (module (net (agent σ')))) = length (params (module (net (agent σ)))) →
       length (param_groups (optimizer (agent σ')))
         = length (param_groups (optimizer (agent σ))) →
       ∃ σ2, load_ckpt lname σ' = (Return tt, σ2)
             ∧ clock (agent σ2) = clock (agent σ)
             ∧ optimizer (agent σ2) = optimizer (agent σ)
             ∧ scheduler (agent σ2) = scheduler (agent σ)).
Proof.
  intros Hsave Hpath. completed_save Hsave.
  assert (Hlater : ∀ σ' : State,
    load_path (agent σ') lname = save_path (agent σ) sname →
    files (world σ') !! save_path (agent σ) sname = Some (saved_checkpoint (agent σ)) →
    length (params (module (net (agent σ')))) = length (params (module (net (agent σ)))) →
    length (param_groups (optimizer (agent σ')))
      = length (param_groups (optimizer (agent σ))) →
    ∃ σ2, load_ckpt lname σ' = (Return tt, σ2)
          ∧ clock (agent σ2) = clock (agent σ)
          ∧ optimizer (agent σ2) = optimizer (agent σ)
          ∧ scheduler (agent σ2) = scheduler (agent σ)).
  { intros σ' Hp Hf Hs Hg. rewrite <- Hp in Hf.
    destruct (load_restores_saved lname (agent σ) σ' Hf Hs Hg) as (σ2 & ? & ? & ? & ? & _).
    by exists σ2. }
  split.
  - apply Hlater; simpl; [done | by rewrite lookup_insert_eq | done | done].
  - intros σ' Hp Hf Hs Hg. apply Hlater; [done | | done | done].
    rewrite Hf. simpl. by rewrite lookup_insert_eq.
Qed.

(** The round trip on the sample agent: saved by epoch at epoch 5, loaded
    as epoch 5. *)
Lemma save_load_roundtrip_sample :
  save_ckpt PyNone Sample.later_state = (Return tt, Sample.saved_state)
  ∧ load_path (agent Sample.saved_state) (PyInt 5)
    = save_path (agent Sample.later_state) PyNone
  ∧ ∃ σ2, load_ckpt (PyInt 5) Sample.saved_state = (Return tt, σ2)
          ∧ clock (agent σ2) = clock (agent Sample.later_state)
          ∧ optimizer (agent σ2) = optimizer (agent Sample.later_state)
          ∧ scheduler (agent σ2) = scheduler (agent Sample.later_state).
Proof.
  assert (H1 : save_ckpt PyNone Sample.later_state = (Return tt, Sample.saved_state))
    by (vm_compute; reflexivity).
  assert (H2 : load_path (agent Sample.saved_state) (PyInt 5)
               = save_path (agent Sample.later_state) PyNone)
    by (vm_compute; reflexivity).
  split; [exact H1|]. split; [exact H2|].
  exact (proj1 (save_load_roundtrip PyNone (PyInt 5) _ _ H1 H2)).
Defined.

(** C3.  When no file exists at the path [load_ckpt] resolves, the call
    raises a [ValueError] whose message carries that path, and nothing of
    the agent or of the world has changed. *)
Theorem load_ckpt_nonexistent (name : PyObj) (σ : State) :
  files (world σ) !! load_path (agent σ) name = None →
  let σ' := state_after (load_ckpt name) σ in
  outcome_of (load_ckpt name) σ
  = Raise (ValueError ("Checkpoint " +:+ load_path (agent σ) name +:+ " not exists."))
  ∧ clock (agent σ') = clock (agent σ)
  ∧ net (agent σ') = net (agent σ)
  ∧ optimizer (agent σ') = optimizer (agent σ)
  ∧ scheduler (agent σ') = scheduler (agent σ)
  ∧ σ' = σ.
Proof.
  intros Hnone. unfold outcome_of, state_after.
  rewrite (load_ckpt_missing name σ Hnone). simpl. done.
Qed.

(** On the fresh sample agent no checkpoint named [best] exists. *)
Lemma load_ckpt_nonexistent_sample :
  files (world Sample.sample_state) !! load_path (agent Sample.sample_state) (PyStr "best")
  = None
  ∧ outcome_of (load_ckpt (PyStr "best")) Sample.sample_state
    = Raise (ValueError "Checkpoint model/ckpt_epochbest.pth not exists.")
  ∧ state_after (load_ckpt (PyStr "best")) Sample.sample_state = Sample.sample_state.
Proof.
  assert (H1 : files (world Sample.sample_state)
               !! load_path (agent Sample.sample_state) (PyStr "best") = None)
    by (vm_compute; reflexivity).
  split; [exact H1|].
  destruct (load_ckpt_nonexistent (PyStr "best") Sample.sample_state H1)
    as (Hout & _ & _ & _ & _ & Hsame).
  split; [exact Hout | exact Hsame].
Defined.

(** C7, as the code has it.  A completed [save_ckpt] has written, at the
    path derived from the name or from the current epoch, the record of
    the clock, the model parameters as they are in host memory, the
    optimizer and the scheduler; no other file has changed; the parameters
    end in device memory, whatever memory they were in before, which is
    where they were before when the agent had them on the device. *)
Theorem save_ckpt_effects (name : PyObj) (σ σ1 : State) :
  save_ckpt name σ = (Return tt, σ1) →
  let a := agent σ in
  files (world σ1) !! save_path a name
    = Some {| ck_clock := make_checkpoint (clock a);
              ck_model_state_dict :=
                {| sd_device := Host; sd_values := params (module (net a)) |};
              ck_optimizer_state_dict := Optimizer_state_dict (optimizer a);
              ck_scheduler_state_dict := StepLR_state_dict (scheduler a) |}
  ∧ save_path a name
    = match name with
      | PyNone => path_join (model_dir a)
                    ("ckpt_epoch" +:+ pretty (epoch (clock a)) +:+ ".pth")
      | _ => path_join (model_dir a) (py_str name +:+ ".pth")
      end
  ∧ (∀ p, p ≠ save_path a name → files (world σ1) !! p = files (world σ) !! p)
  ∧ residency (module (net (agent σ1))) = Cuda
  ∧ (residency (module (net a)) = Cuda →
     residency (module (net (agent σ1))) = residency (module (net a))
     ∧ agent σ1 = a).
Proof.
  intros Hsave. completed_save Hsave. simpl.
  split; [by rewrite lookup_insert_eq |].
  split; [by destruct name |].
  split; [intros p Hp; by rewrite lookup_insert_ne |].
  split; [done|].
  intros Hdev. split; [done|]. by apply set_module_cuda_id.
Qed.

(** The sample agent's save at epoch 5. *)
Lemma save_ckpt_effects_sample :
  save_ckpt PyNone Sample.later_state = (Return tt, Sample.saved_state)
  ∧ residency (module (net (agent Sample.later_state))) = Cuda
  ∧ is_Some (files (world Sample.saved_state) !! "model/ckpt_epoch5.pth")
  ∧ residency (module (net (agent Sample.saved_state)))
    = residency (module (net (agent Sample.later_state)))
  ∧ agent Sample.saved_state = agent Sample.later_state.
Proof.
  assert (H1 : save_ckpt PyNone Sample.later_state = (Return tt, Sample.saved_state))
    by (vm_compute; reflexivity).
  assert (H2 : residency (module (net (agent Sample.later_state))) = Cuda)
    by reflexivity.
  split; [exact H1|]. split; [exact H2|].
  destruct (save_ckpt_effects PyNone _ _ H1) as (Hfile & _ & _ & _ & Hres).
  split; [exact (mk_is_Some _ _ Hfile)|]. exact (Hres H2).
Defined.

(** C7 as stated fails: a save that [torch.save] refuses leaves the
    parameters in host memory; the next save completes and ends with them
    on the device, not where they were before it. *)
Lemma save_ckpt_moves_to_device :
  outcome_of (save_ckpt (PyStr "best")) Scenarios.readonly_state ≠ Return tt
  ∧ Scenarios.stranded_state
    = state_after (save_ckpt (PyStr "best")) Scenarios.readonly_state
  ∧ save_ckpt (PyStr "latest") Scenarios.stranded_state
    = (Return tt, Scenarios.recovered_state)
  ∧ residency (module (net (agent Scenarios.stranded_state))) = Host
  ∧ residency (module (net (agent Scenarios.recovered_state))) = Cuda
  ∧ residency (module (net (agent Scenarios.recovered_state)))
    ≠ residency (module (net (agent Scenarios.stranded_state))).
Proof.
  split; [vm_compute; discriminate|]. split; [reflexivity|].
  split; [vm_compute; reflexivity|]. split; [vm_compute; reflexivity|].
  split; [vm_compute; reflexivity|]. vm_compute. discriminate.
Qed.

(** C9, as the code has it.  For an explicit name other than ["latest"],
    [save_ckpt] writes [<name>.pth] and [load_ckpt] resolves
    [ckpt_epoch<name>.pth], two different paths; the paths agree for
    ["latest"] and for a save by epoch loaded by that epoch.  After a
    completed save under such a name, a load under the same name never
    reads the file just written: it fails when no file
    [ckpt_epoch<name>.pth] was there before, and finds that older file
    otherwise. *)
Theorem explicit_name_mismatch (n : PyObj) (σ σ1 : State) :
  n ≠ PyNone → n ≠ PyStr "latest" →
  let a := agent σ in
  save_path a n = path_join (model_dir a) (py_str n +:+ ".pth")
  ∧ load_path a n = path_join (model_dir a) ("ckpt_epoch" +:+ py_str n +:+ ".pth")
  ∧ save_path a n ≠ load_path a n
  ∧ save_path a (PyStr "latest") = load_path a (PyStr "latest")
  ∧ save_path a PyNone = load_path a (PyInt (epoch (clock a)))
  ∧ (save_ckpt n σ = (Return tt, σ1) →
     (files (world σ) !! load_path a n = None →
      load_ckpt n σ1 =
        (Raise (ValueError ("Checkpoint " +:+ load_path a n +:+ " not exists.")), σ1))
     ∧ (∀ c, files (world σ) !! load_path a n = Some c →
             files (world σ1) !! load_path (agent σ1) n = Some c)).
Proof.
  intros Hnone Hlatest a.
  assert (Hload : load_path a n
                  = path_join (model_dir a) ("ckpt_epoch" +:+ py_str n +:+ ".pth")).
  { unfold load_path. by rewrite load_name_explicit. }
  assert (Hsavep : save_path a n = path_join (model_dir a) (py_str n +:+ ".pth")).
  { by destruct n. }
  assert (Hdiff : save_path a n ≠ load_path a n).
  { rewrite Hload, Hsavep. apply explicit_paths_differ. }
  split; [done|]. split; [done|]. split; [done|]. split; [done|]. split; [done|].
  intros Hsave. completed_save Hsave. fold a.
  split.
  - intros Hmiss.
    pose proof (load_ckpt_missing n
      {| agent := set_net (set_module (Module_cuda (module (net a))) (net a)) a;
         world := set_stdout (stdout (world σ) ++ ["Checkpoint saved at " +:+ save_path a n])
                    (set_files (<[save_path a n := saved_checkpoint a]> (files (world σ)))
                               (world σ)) |}) as Hl.
    apply Hl. simpl. change (load_path _ n) with (load_path a n).
    by rewrite lookup_insert_ne.
  - intros c Hc. simpl. change (load_path _ n) with (load_path a n).
    by rewrite lookup_insert_ne.
Qed.

(** On the fresh sample agent: saved as [best], not found as [best]. *)
Lemma explicit_name_mismatch_sample :
  PyStr "best" ≠ PyNone
  ∧ PyStr "best" ≠ PyStr "latest"
  ∧ save_ckpt (PyStr "best") Sample.sample_state = (Return tt, Sample.best_state)
  ∧ files (world Sample.sample_state)
      !! load_path (agent Sample.sample_state) (PyStr "best") = None
  ∧ save_path (agent Sample.sample_state) (PyStr "best") = "model/best.pth"
  ∧ load_path (agent Sample.sample_state) (PyStr "best") = "model/ckpt_epochbest.pth"
  ∧ load_ckpt (PyStr "best") Sample.best_state
    = (Raise (ValueError "Checkpoint model/ckpt_epochbest.pth not exists."),
       Sample.best_state).
Proof.
  assert (H1 : PyStr "best" ≠ PyNone) by discriminate.
  assert (H2 : PyStr "best" ≠ PyStr "latest") by discriminate.
  assert (H3 : save_ckpt (PyStr "best") Sample.sample_state
               = (Return tt, Sample.best_state)) by (vm_compute; reflexivity).
  assert (H4 : files (world Sample.sample_state)
                 !! load_path (agent Sample.sample_state) (PyStr "best") = None)
    by (vm_compute; reflexivity).
  split; [exact H1|]. split; [exact H2|]. split; [exact H3|]. split; [exact H4|].
  destruct (explicit_name_mismatch (PyStr "best") Sample.sample_state Sample.best_state
              H1 H2) as (Hs & Hl & _ & _ & _ & Hafter).
  split; [exact Hs|]. split; [exact Hl|].
  exact (proj1 (Hafter H3) H4).
Defined.

(** C9 as stated fails: with the checkpoint of epoch 5 on disk, a save
    under the explicit name [5] followed by a load under the name [5]
    completes; the load reads [ckpt_epoch5.pth]. *)
Lemma explicit_name_load_succeeds :
  PyInt 5 ≠ PyNone
  ∧ PyInt 5 ≠ PyStr "latest"
  ∧ outcome_of (save_ckpt (PyInt 5)) Sample.saved_state = Return tt
  ∧ outcome_of (load_ckpt (PyInt 5))
      (state_after (save_ckpt (PyInt 5)) Sample.saved_state) = Return tt.
Proof. repeat split; try discriminate; vm_compute; reflexivity. Qed.

(** With the file in place, [load_ckpt] completes or is refused by the
    network or the optimizer. *)
Lemma load_ckpt_found_outcome (name : PyObj) (σ : State) (c : Checkpoint) :
  files (world σ) !! load_path (agent σ) name = Some c →
  outcome_of (load_ckpt name) σ = Return tt
  ∨ outcome_of (load_ckpt name) σ = Raise (RuntimeError "Error(s) in loading state_dict")
  ∨ outcome_of (load_ckpt name) σ
    = Raise (ValueError "loaded state dict has a different number of parameter groups").
Proof.
  intros Hfile. unfold outcome_of. rewrite load_ckpt_cases. cbn zeta.
  rewrite Hfile. repeat case_bool_decide; simpl; auto.
Qed.

(** C10.  [load_ckpt()] resolves [ckpt_epochNone.pth] in the model
    directory, which is neither the path of ["latest"] nor the path of the
    current epoch's checkpoint; it raises the missing-path [ValueError]
    when no file of that name exists, and does not raise it when one
    does. *)
Theorem load_ckpt_default_name (σ : State) :
  let a := agent σ in
  let path := path_join (model_dir a) "ckpt_epochNone.pth" in
  load_path a PyNone = path
  ∧ path ≠ load_path a (PyStr "latest")
  ∧ path ≠ save_path a PyNone
  ∧ path ≠ load_path a (PyInt (epoch (clock a)))
  ∧ (files (world σ) !! path = None →
     load_ckpt PyNone σ
     = (Raise (ValueError ("Checkpoint " +:+ path +:+ " not exists.")), σ))
  ∧ (is_Some (files (world σ) !! path) →
     outcome_of (load_ckpt PyNone) σ
     ≠ Raise (ValueError ("Checkpoint " +:+ path +:+ " not exists."))).
Proof.
  simpl.
  assert (Hepoch : path_join (model_dir (agent σ)) "ckpt_epochNone.pth"
                   ≠ save_path (agent σ) PyNone).
  { intros Heq. apply path_join_relative in Heq; [|done..].
    simpl in Heq. injection Heq as Heq.
    by apply (pretty_Z_not_None (epoch (clock (agent σ))) ".pth"). }
  split; [done|]. split; [|split; [done|split; [done|split]]].
  - intros Heq. by apply path_join_relative in Heq.
  - intros Hnone. by apply (load_ckpt_missing PyNone).
  - intros [c Hc].
    destruct (load_ckpt_found_outcome PyNone σ c Hc) as [-> | [-> | ->]]; discriminate.
Qed.

(** The fresh sample agent has no such file. *)
Lemma load_ckpt_default_name_sample :
  files (world Sample.sample_state) !! "model/ckpt_epochNone.pth" = None
  ∧ load_ckpt PyNone Sample.sample_state
    = (Raise (ValueError "Checkpoint model/ckpt_epochNone.pth not exists."),
       Sample.sample_state).
Proof.
  assert (H1 : files (world Sample.sample_state) !! "model/ckpt_epochNone.pth" = None)
    by (vm_compute; reflexivity).
  split; [exact H1|].
  destruct (load_ckpt_default_name Sample.sample_state) as (_ & _ & _ & _ & Hmiss & _).
  exact (Hmiss H1).
Defined.

(** ** Logging *)

Lemma extend_writer_app (tb : WriterRef) (l1 l2 : list Scalar) (a : Agent) :
  extend_writer tb l2 (extend_writer tb l1 a) = extend_writer tb (l1 ++ l2) a.
Proof.
  destruct tb; unfold extend_writer, set_train_tb, set_val_tb; simpl;
    by rewrite app_assoc.
Qed.

Lemma extend_writer_nil (tb : WriterRef) (a : Agent) : extend_writer tb [] a = a.
Proof.
  destruct tb, a; unfold extend_writer, set_train_tb, set_val_tb; simpl;
    by rewrite app_nil_r.
Qed.

Lemma extend_writer_clock (tb : WriterRef) (l : list Scalar) (a : Agent) :
  clock (extend_writer tb l a) = clock a.
Proof. by destruct tb. Qed.

Lemma writer_extend_writer (tb : WriterRef) (l : list Scalar) (a : Agent) :
  writer tb (extend_writer tb l a) = writer tb a ++ l.
Proof. by destruct tb. Qed.

Lemma add_scalar_run (tb : WriterRef) (k : string) (v : Q) (n : Z) (σ : State) :
  add_scalar tb k v n σ
  = (Return tt, {| agent := extend_writer tb [{| sc_tag := k; sc_value := v; sc_step := n |}]
                              (agent σ);
                   world := world σ |}).
Proof. by destruct tb. Qed.

(** [record_losses] always completes: it appends one entry per item of
    the dictionary, in order, to the writer of the mode. *)
Lemma record_losses_run (d : LossDict) (mode : string) (σ : State) :
  record_losses d mode σ
  = (Return tt,
     {| agent := extend_writer (mode_writer mode)
                   (map (loss_entry (step (clock (agent σ)))) d) (agent σ);
        world := world σ |}).
Proof.
  unfold record_losses. fold (mode_writer mode).
  revert σ. induction d as [|[k t] d IH]; intros σ; simpl.
  - unfold ret. rewrite extend_writer_nil. by destruct σ.
  - unfold bind at 1. unfold bind at 1. unfold self at 1.
    rewrite add_scalar_run, IH. simpl.
    by rewrite extend_writer_app, extend_writer_clock.
Qed.

Lemma count_tag_app (k : string) (l1 l2 : list Scalar) :
  count_tag k (l1 ++ l2) = (count_tag k l1 + count_tag k l2)%nat.
Proof. unfold count_tag. by rewrite filter_app, length_app. Qed.

Lemma count_tag_entries_absent (k : string) (n : Z) (d : LossDict) :
  k ∉ dict_keys d → count_tag k (map (loss_entry n) d) = 0%nat.
Proof.
  unfold count_tag. induction d as [|[k' t] d IH]; simpl; [done|].
  intros Hk. rewrite not_elem_of_cons in Hk. destruct Hk as [Hne Hk].
  rewrite filter_cons_False by (simpl; congruence). by apply IH.
Qed.

Lemma count_tag_entries_once (k : string) (n : Z) (d : LossDict) :
  dict_wf d → k ∈ dict_keys d → count_tag k (map (loss_entry n) d) = 1%nat.
Proof.
  unfold dict_wf. induction d as [|[k' t] d IH]; simpl.
  - intros _ Hk. by apply elem_of_nil in Hk.
  - intros Hnd Hk. apply NoDup_cons in Hnd as [Hfresh Hnd].
    unfold count_tag in *. simpl.
    apply elem_of_cons in Hk as [-> | Hk].
    + rewrite filter_cons_True by done. simpl. f_equal.
      by apply (count_tag_entries_absent k' n d).
    + rewrite filter_cons_False; [by apply IH|].
      simpl. by intros <-.
Qed.

(** C8.  [record_losses] completes for every dictionary and mode.  The
    writer of the mode (the train writer for ["train"], the validation
    writer for ["validation"]) receives, for each item of the dictionary
    in turn, one entry carrying the key, the term's value and the current
    step; so under each key of the dictionary exactly one entry is added,
    under any other tag none, and the other writer is left alone. *)
Theorem record_losses_entries (d : LossDict) (mode : string) (σ : State) :
  let σ' := state_after (record_losses d mode) σ in
  let tb := mode_writer mode in
  let other := match tb with TrainTb => ValTb | ValTb => TrainTb end in
  outcome_of (record_losses d mode) σ = Return tt
  ∧ (mode = "train" → tb = TrainTb)
  ∧ (mode = "validation" → tb = ValTb)
  ∧ writer tb (agent σ')
    = writer tb (agent σ) ++ map (loss_entry (step (clock (agent σ)))) d
  ∧ writer other (agent σ') = writer other (agent σ)
  ∧ map sc_tag (map (loss_entry (step (clock (agent σ)))) d) = dict_keys d
  ∧ (dict_wf d → ∀ k, k ∈ dict_keys d →
       count_tag k (writer tb (agent σ')) = S (count_tag k (writer tb (agent σ))))
  ∧ (∀ k, k ∉ dict_keys d →
       count_tag k (writer tb (agent σ')) = count_tag k (writer tb (agent σ))).
Proof.
  unfold state_after, outcome_of. rewrite record_losses_run. cbn [fst snd agent].
  split; [done|].
  split; [intros ->; done|]. split; [intros ->; done|].
  rewrite writer_extend_writer.
  split; [done|]. split; [by destruct (mode_writer mode)|].
  split; [by rewrite map_map|].
  split.
  - intros Hwf k Hk. rewrite count_tag_app, (count_tag_entries_once k _ d Hwf Hk). lia.
  - intros k Hk. rewrite count_tag_app, (count_tag_entries_absent k _ d Hk). lia.
Qed.

(** The example dictionary logged at step 40 of the sample agent. *)
Lemma record_losses_entries_sample :
  dict_wf (loss_ab [] [])
  ∧ "a" ∈ dict_keys (loss_ab [] [])
  ∧ "validation" = "validation"
  ∧ mode_writer "validation" = ValTb
  ∧ val_tb (agent (state_after (record_losses (loss_ab [] []) "validation")
                               Sample.later_state))
    = [{| sc_tag := "a"; sc_value := 1%Q; sc_step := 40 |};
       {| sc_tag := "b"; sc_value := 2%Q; sc_step := 40 |}]
  ∧ count_tag "a" (val_tb (agent (state_after (record_losses (loss_ab [] []) "validation")
                                              Sample.later_state)))
    = 1%nat.
Proof.
  assert (H1 : dict_wf (loss_ab [] [])) by (unfold dict_wf; compute_done).
  assert (H2 : "a" ∈ dict_keys (loss_ab [] [])) by compute_done.
  assert (H3 : "validation" = "validation") by reflexivity.
  split; [exact H1|]. split; [exact H2|]. split; [exact H3|].
  destruct (record_losses_entries (loss_ab [] []) "validation" Sample.later_state)
    as (_ & _ & Hmode & Hwr & _ & _ & Hone & _).
  split; [exact (Hmode H3)|]. split; [exact Hwr|]. exact (Hone H1 "a" H2).
Defined.

(** ** The learning rate *)

Lemma update_learning_rate_run (σ : State) (g : ParamGroup) :
  last (param_groups (optimizer (agent σ))) = Some g →
  step_size (scheduler (agent σ)) ≠ 0 →
  update_learning_rate σ
  = (Return tt,
     let a := agent σ in
     let e := epoch (clock a) in
     let s := {| step_size := step_size (scheduler a); gamma := gamma (scheduler a);
                 base_lrs := base_lrs (scheduler a); last_epoch := e |} in
     {| agent :=
          set_optimizer_attr
            {| param_groups :=
                 assign_lrs (param_groups (optimizer a))
                   (map (λ base_lr, (base_lr * gamma s ^ (e / step_size s))%Q) (base_lrs s));
               opt_state := opt_state (optimizer a) |}
            (set_scheduler s
               (set_train_tb (train_tb a ++ [{| sc_tag := "learning_rate"; sc_value := lr g;
                                               sc_step := e |}]) a));
        world := world σ |}).
Proof.
  intros Hlast Hstep.
  unfold update_learning_rate, bind, self, last_group. simpl.
  rewrite Hlast. unfold ret, scheduler_step, bind, self, StepLR_get_lr. simpl.
  by rewrite (bool_decide_false _ Hstep).
Qed.

(** C4, as the code has it.  On an agent whose optimizer has a parameter
    group and whose scheduler has a step size other than zero,
    [update_learning_rate] completes; it appends to the train writer the
    last group's learning rate as it is before the scheduler moves, tagged
    [learning_rate] at the clock's epoch, and sets the scheduler's epoch to
    the clock's epoch, writing the rates of that epoch into the optimizer's
    groups.  The scheduler has advanced by one epoch exactly when the clock
    is one epoch ahead of it. *)
Theorem learning_rate_update (σ : State) (g : ParamGroup) :
  last (param_groups (optimizer (agent σ))) = Some g →
  step_size (scheduler (agent σ)) ≠ 0 →
  let a := agent σ in
  ∃ σ', update_learning_rate σ = (Return tt, σ')
    ∧ train_tb (agent σ')
      = train_tb a ++ [{| sc_tag := "learning_rate"; sc_value := lr g;
                          sc_step := epoch (clock a) |}]
    ∧ val_tb (agent σ') = val_tb a
    ∧ clock (agent σ') = clock a
    ∧ last_epoch (scheduler (agent σ')) = epoch (clock a)
    ∧ (last_epoch (scheduler (agent σ')) = last_epoch (scheduler a) + 1
       ↔ epoch (clock a) = last_epoch (scheduler a) + 1)
    ∧ step_size (scheduler (agent σ')) = step_size (scheduler a)
    ∧ gamma (scheduler (agent σ')) = gamma (scheduler a)
    ∧ base_lrs (scheduler (agent σ')) = base_lrs (scheduler a)
    ∧ param_groups (optimizer (agent σ'))
      = assign_lrs (param_groups (optimizer a))
          (map (λ base_lr, (base_lr * gamma (scheduler a)
                              ^ (epoch (clock a) / step_size (scheduler a)))%Q)
               (base_lrs (scheduler a))).
Proof.
  intros Hlast Hstep a. eexists. split.
  - by apply update_learning_rate_run.
  - simpl. repeat split; done.
Qed.

(** The sample agent at epoch 5. *)
Lemma learning_rate_update_sample :
  last (param_groups (optimizer (agent Sample.later_state)))
  = Some {| lr := (1#100)%Q; initial_lr := (1#100)%Q |}
  ∧ step_size (scheduler (agent Sample.later_state)) ≠ 0
  ∧ ∃ σ', update_learning_rate Sample.later_state = (Return tt, σ')
          ∧ train_tb (agent σ')
            = [{| sc_tag := "learning_rate"; sc_value := (1#100)%Q; sc_step := 5 |}]
          ∧ last_epoch (scheduler (agent σ')) = 5.
Proof.
  assert (H1 : last (param_groups (optimizer (agent Sample.later_state)))
               = Some {| lr := (1#100)%Q; initial_lr := (1#100)%Q |}) by reflexivity.
  assert (H2 : step_size (scheduler (agent Sample.later_state)) ≠ 0) by (simpl; lia).
  split; [exact H1|]. split; [exact H2|].
  destruct (learning_rate_update Sample.later_state _ H1 H2)
    as (σ' & Hrun & Htb & _ & _ & Hep & _).
  exists σ'. split; [exact Hrun|]. split; [exact Htb | exact Hep].
Defined.

(** C4 as stated fails: the sample scheduler is at epoch 0 when the clock
    is at epoch 5, and one call moves it to 5; a second call in the same
    epoch does not move it at all. *)
Lemma update_learning_rate_jumps :
  outcome_of update_learning_rate Sample.later_state = Return tt
  ∧ last_epoch (scheduler (agent Sample.later_state)) = 0
  ∧ last_epoch (scheduler (agent (state_after update_learning_rate Sample.later_state)))
    = 5
  ∧ outcome_of update_learning_rate (state_after update_learning_rate Sample.later_state)
    = Return tt
  ∧ last_epoch (scheduler (agent (state_after update_learning_rate
                                    (state_after update_learning_rate Sample.later_state))))
    = last_epoch (scheduler (agent (state_after update_learning_rate Sample.later_state))).
Proof. vm_compute. repeat split. Qed.

(** ** The training step *)

Lemma fold_py_add_tensor (l : list Tensor) (t0 : Tensor) :
  fold_left py_add (map NumTensor l) (NumTensor t0)
  = NumTensor {| t_value := fold_left Qplus (map t_value l) (t_value t0);
                 t_grad := fold_left grad_add (map t_grad l) (t_grad t0) |}.
Proof.
  revert t0. induction l as [|t l IH]; intros t0; simpl.
  - by destruct t0.
  - by rewrite IH.
Qed.

Lemma fold_Qplus_shift (l : list Q) (x : Q) :
  (fold_left Qplus l x == x + fold_right Qplus 0 l)%Q.
Proof.
  revert x. induction l as [|y l IH]; intros x; simpl.
  - by rewrite Qplus_0_r.
  - by rewrite IH, Qplus_assoc.
Qed.

Lemma fold_grad_add_some (l : list (option (list Q))) (g : list Q) :
  ∃ g', fold_left grad_add l (Some g) = Some g'.
Proof.
  revert g. induction l as [|[h|] l IH]; intros g; simpl; eauto.
Qed.

Lemma fold_grad_add_exists (l : list (option (list Q))) (acc : option (list Q)) :
  Exists is_Some l → ∃ g, fold_left grad_add l acc = Some g.
Proof.
  intros Hex. revert acc. induction Hex as [x l [g ->] | x l _ IH]; intros acc; simpl.
  - destruct acc; simpl; apply fold_grad_add_some.
  - apply IH.
Qed.

(** Over a dictionary with a term, [sum] returns a tensor: its value is
    the sum of the terms' values, its gradient the sum of their
    gradients. *)
Lemma py_sum_tensors (d : LossDict) :
  d ≠ [] →
  ∃ t, py_sum (map NumTensor (dict_values d)) = NumTensor t
       ∧ (t_value t == spec_total_loss d)%Q
       ∧ t_grad t = spec_total_grad d.
Proof.
  destruct d as [|[k t] d]; [done|]. intros _.
  unfold py_sum, spec_total_loss, spec_total_grad, dict_values. simpl.
  rewrite fold_py_add_tensor. eexists. split; [done|]. simpl. split; [|done].
  rewrite fold_Qplus_shift. unfold inject_Z. by rewrite Qplus_0_r.
Qed.

Lemma has_grad_total (d : LossDict) :
  has_grad d → d ≠ [] ∧ ∃ g, spec_total_grad d = Some g.
Proof.
  intros Hex. split.
  - intros ->. by apply Exists_nil in Hex.
  - apply fold_grad_add_exists. unfold dict_values.
    induction Hex as [kv d Hkv | kv d _ IH]; simpl;
      [by apply Exists_cons_hd | by apply Exists_cons_tl].
Qed.

Lemma count_steps_app (l1 l2 : list TorchCall) :
  count_steps (l1 ++ l2) = (count_steps l1 + count_steps l2)%nat.
Proof. unfold count_steps. by rewrite filter_app, length_app. Qed.

Section Training.

Context `{External}.

(** [update_network] clears the gradients, then stops at [backward] when
    the sum is the integer of an empty dictionary or a tensor outside the
    autograd graph, and otherwise backpropagates and steps once. *)
Lemma update_network_run (d : LossDict) (σ : State) :
  update_network d σ =
    let a := agent σ in
    let m := module (net a) in
    let cleared := {| agent := set_net (set_module {| params := params m; grads := None;
                                                      residency := residency m;
                                                      training := training m |} (net a)) a;
                      world := set_torch_calls (torch_calls (world σ) ++ [CallZeroGrad])
                                               (world σ) |} in
    match py_sum (map NumTensor (dict_values d)) with
    | NumInt _ =>
        (Raise (AttributeError "'int' object has no attribute 'backward'"), cleared)
    | NumTensor t =>
        match t_grad t with
        | None =>
            (Raise (RuntimeError "element 0 of tensors does not require grad and does not have a grad_fn"),
             cleared)
        | Some g =>
            let r := optimizer_rule (optimizer a) (params m) g in
            (Return tt,
             {| agent := set_net (set_module {| params := snd r; grads := Some g;
                                                residency := residency m;
                                                training := training m |} (net a))
                           (set_optimizer_attr (fst r) a);
                world := set_torch_calls
                           (torch_calls (world σ)
                            ++ [CallZeroGrad; CallBackward t; CallOptimizerStep (Some g)])
                           (world σ) |})
        end
    end.
Proof.
  unfold update_network, optimizer_zero_grad, backward, optimizer_step, bind. simpl.
  destruct (py_sum (map NumTensor (dict_values d))) as [z|t]; simpl; [done|].
  destruct (t_grad t) as [g|]; simpl; [|done].
  destruct (optimizer_rule _ _ g) as [o' p']. simpl.
  unfold log_call, upd_world, set_net, set_module, set_optimizer_attr, set_torch_calls.
  simpl. by rewrite <- !app_assoc.
Qed.

(** C5, as the code has it.  For a loss dictionary with a term attached
    to the autograd graph, [update_network] completes: the loss it
    backpropagates is the sum of all term values with the sum of their
    gradients; the calls made are, in this order, one clearing of the
    gradients, one backward pass of that total and one optimizer step,
    which sees exactly the total's gradient.  For [{"a": 1.0, "b": 2.0}]
    the total is 3.0. *)
Theorem update_network_total (d : LossDict) (σ : State) :
  has_grad d →
  ∃ t g σ',
    py_sum (map NumTensor (dict_values d)) = NumTensor t
    ∧ (t_value t == spec_total_loss d)%Q
    ∧ t_grad t = Some g
    ∧ spec_total_grad d = Some g
    ∧ update_network d σ = (Return tt, σ')
    ∧ torch_calls (world σ')
      = torch_calls (world σ) ++ [CallZeroGrad; CallBackward t; CallOptimizerStep (Some g)]
    ∧ count_steps (torch_calls (world σ')) = S (count_steps (torch_calls (world σ)))
    ∧ grads (module (net (agent σ'))) = Some g
    ∧ (optimizer (agent σ'), params (module (net (agent σ'))))
      = optimizer_rule (optimizer (agent σ)) (params (module (net (agent σ)))) g
    ∧ (∀ ga gb, d = loss_ab ga gb →
         t = {| t_value := 3%Q; t_grad := Some (vadd ga gb) |}).
Proof.
  intros Hg. destruct (has_grad_total d Hg) as [Hne [g Hgrad]].
  destruct (py_sum_tensors d Hne) as (t & Hsum & Hval & Htg).
  exists t, g. eexists. split; [done|]. split; [done|].
  split; [by rewrite Htg|]. split; [done|].
  split.
  { rewrite update_network_run. simpl. rewrite Hsum, Htg, Hgrad. reflexivity. }
  simpl. split; [done|]. split.
  { rewrite count_steps_app.
    replace (count_steps [CallZeroGrad; CallBackward t; CallOptimizerStep (Some g)])
      with 1%nat by reflexivity.
    lia. }
  split; [done|]. split; [by destruct (optimizer_rule _ _ _)|].
  intros ga gb ->. vm_compute in Hsum. by injection Hsum as <-.
Qed.

Lemma update_network_training (d : LossDict) (σ : State) :
  training (module (net (agent (state_after (update_network d) σ))))
  = training (module (net (agent σ))).
Proof.
  unfold state_after. rewrite update_network_run. simpl.
  destruct (py_sum _) as [|t]; [done|]. by destruct (t_grad t).
Qed.

End Training.

(** The example dictionary on the sample agent: the step sees the gradient
    of the total 3.0. *)
Lemma update_network_total_sample :
  has_grad (loss_ab [1; 2]%Q [3; 4]%Q)
  ∧ ∃ t g σ',
      @update_network Sample.sample_external (loss_ab [1; 2]%Q [3; 4]%Q) Sample.later_state
      = (Return tt, σ')
      ∧ t = {| t_value := 3%Q; t_grad := Some [4; 6]%Q |}
      ∧ t_grad t = Some g
      ∧ torch_calls (world σ')
        = torch_calls (world Sample.later_state)
          ++ [CallZeroGrad; CallBackward t; CallOptimizerStep (Some g)].
Proof.
  assert (H1 : has_grad (loss_ab [1; 2]%Q [3; 4]%Q))
    by (apply Exists_cons_hd; simpl; eauto).
  split; [exact H1|].
  destruct (@update_network_total Sample.sample_external _ Sample.later_state H1)
    as (t & g & σ' & _ & _ & Htg & _ & Hrun & Hcalls & _ & _ & _ & Hab).
  exists t, g, σ'. split; [exact Hrun|].
  split; [exact (Hab _ _ eq_refl)|]. split; [exact Htg | exact Hcalls].
Defined.

(** C5 as stated fails: for the empty dictionary [sum] returns the integer
    0, [backward] raises after the gradients were cleared, and no optimizer
    step is made; a dictionary whose only term is outside the autograd
    graph ends the same way. *)
Lemma update_network_empty_dict :
  outcome_of (@update_network Sample.sample_external []) Sample.later_state
  = Raise (AttributeError "'int' object has no attribute 'backward'")
  ∧ torch_calls (world (state_after (@update_network Sample.sample_external [])
                                    Sample.later_state))
    = [CallZeroGrad]
  ∧ count_steps (torch_calls (world (state_after (@update_network Sample.sample_external [])
                                                 Sample.later_state)))
    = 0%nat
  ∧ count_steps (torch_calls (world (state_after
      (@update_network Sample.sample_external
         [("a", {| t_value := 1%Q; t_grad := None |})])
      Sample.later_state)))
    = 0%nat.
Proof. vm_compute. done. Qed.

(** ** Training and validation steps *)

Lemma forward_readonly_run (cls : AgentClass) (data : Data) (σ : State) :
  forward_readonly cls → forward cls data σ = (outcome_of (forward cls data) σ, σ).
Proof.
  intros Hro. specialize (Hro data σ). unfold state_after, outcome_of in *.
  destruct (forward cls data σ) as [r σ']. simpl in *. by subst.
Qed.

(** [record_losses] touches the two writers and nothing else. *)
Lemma record_losses_frame (d : LossDict) (mode : string) (σ : State) :
  let σ' := state_after (record_losses d mode) σ in
  net (agent σ') = net (agent σ) ∧ optimizer (agent σ') = optimizer (agent σ)
  ∧ world σ' = world σ.
Proof.
  unfold state_after. rewrite record_losses_run. simpl.
  by destruct (mode_writer mode).
Qed.

(** C6.  With a [forward] that only reads, the network is in training mode
    after [train_func], however the call ends; after [val_func] it is in
    evaluation mode, and the parameters, their gradients and the optimizer
    are what they were, no call into autograd or the optimizer having been
    made. *)
Theorem train_val_modes `{External} (cls : AgentClass) (data : Data) (σ : State) :
  forward_readonly cls →
  training (module (net (agent (state_after (train_func cls data) σ)))) = true
  ∧ training (module (net (agent (state_after (val_func cls data) σ)))) = false
  ∧ params (module (net (agent (state_after (val_func cls data) σ))))
    = params (module (net (agent σ)))
  ∧ grads (module (net (agent (state_after (val_func cls data) σ))))
    = grads (module (net (agent σ)))
  ∧ optimizer (agent (state_after (val_func cls data) σ)) = optimizer (agent σ)
  ∧ torch_calls (world (state_after (val_func cls data) σ)) = torch_calls (world σ).
Proof.
  intros Hro. split.
  - unfold state_after, train_func, bind, net_train, upd_module, upd_agent. simpl.
    rewrite (forward_readonly_run cls data _ Hro).
    destruct (outcome_of (forward cls data) _) as [[|outputs losses]|e]; simpl; try done.
    pose proof (update_network_training losses
      {| agent := set_net (set_module (Module_train (module (net (agent σ))))
                                      (net (agent σ))) (agent σ);
         world := world σ |}) as Hupd.
    unfold state_after in Hupd.
    destruct (update_network losses _) as [[[]|e] σu]; simpl in *; [|done].
    destruct (record_losses_frame losses "train" σu) as (Hnet & _ & _).
    unfold state_after in Hnet.
    destruct (record_losses losses "train" σu) as [[[]|e] σr]; simpl in *;
      by rewrite Hnet.
  - unfold state_after, val_func, bind, no_grad, net_eval, upd_module, upd_agent. simpl.
    rewrite (forward_readonly_run cls data _ Hro).
    destruct (outcome_of (forward cls data) _) as [[|outputs losses]|e]; simpl; try done.
    pose proof (record_losses_frame losses "validation"
      {| agent := set_net (set_module (Module_eval (module (net (agent σ))))
                                      (net (agent σ))) (agent σ);
         world := set_grad_enabled (grad_enabled (world σ))
                    (set_grad_enabled false (world σ)) |}) as (Hnet & Hopt & Hw).
    unfold state_after in *.
    destruct (record_losses losses "validation" _) as [[[]|e] σr]; simpl in *;
      rewrite Hnet, Hopt, Hw; done.
Qed.

(** A training step and a validation step of the sample subclass, from a
    network left in evaluation mode. *)
Lemma train_val_modes_sample :
  forward_readonly Sample.MseAgent
  ∧ outcome_of (@train_func Sample.sample_external Sample.MseAgent [1]%Q)
               Sample.eval_state
    = Return ([1]%Q, [("mse", {| t_value := (1#4)%Q;
                                 t_grad := Some [1#1; (-1)#2]%Q |})])
  ∧ training (module (net (agent Sample.eval_state))) = false
  ∧ training (module (net (agent
      (state_after (@train_func Sample.sample_external Sample.MseAgent [1]%Q)
                   Sample.eval_state)))) = true
  ∧ training (module (net (agent
      (state_after (val_func Sample.MseAgent [1]%Q) Sample.later_state)))) = false
  ∧ params (module (net (agent
      (state_after (val_func Sample.MseAgent [1]%Q) Sample.later_state))))
    = params (module (net (agent Sample.later_state))).
Proof.
  assert (H1 : forward_readonly Sample.MseAgent) by (intros data σ; reflexivity).
  split; [exact H1|]. split; [vm_compute; reflexivity|]. split; [reflexivity|].
  split.
  - exact (proj1 (@train_val_modes Sample.sample_external Sample.MseAgent [1]%Q
                    Sample.eval_state H1)).
  - destruct (@train_val_modes Sample.sample_external Sample.MseAgent [1]%Q
                Sample.later_state H1) as (_ & Hmode & Hparams & _).
    split; [exact Hmode | exact Hparams].
Defined.

(** ** The abstract methods *)

(** C2.  [build_net] and [visualize_batch] raise [NotImplementedError]
    when not overridden; [forward], whose body is [pass] in [BaseAgent] and
    in [MyAgent], returns [None] and raises nothing, so that [train_func]
    on a [MyAgent] ends in the [TypeError] of unpacking [None]. *)
Theorem forward_stub_returns_none `{External} (data : Data) (tb : WriterRef)
    (config : Config) (σ : State) :
  forward BaseAgent data σ = (Return FwdNone, σ)
  ∧ forward MyAgent data σ = (Return FwdNone, σ)
  ∧ build_net BaseAgent config = Raise NotImplementedError
  ∧ visualize_batch BaseAgent data tb σ = (Raise NotImplementedError, σ)
  ∧ visualize_batch MyAgent data tb σ = (Raise NotImplementedError, σ)
  ∧ outcome_of (train_func MyAgent data) σ
    = Raise (TypeError "cannot unpack non-iterable NoneType object").
Proof. repeat split. Qed.

(** * Further properties of the methods *)

(** ** Saving *)

(** X1.  When [torch.save] cannot write the resolved path, [save_ckpt]
    raises what [torch.save] raised, and neither [print] nor [net.cuda()]
    has run: no file is written, nothing is printed, and the parameters
    are left in host memory wherever they were before. *)
Theorem save_ckpt_failure (name : PyObj) (σ : State) :
  save_path (agent σ) name ∈ unwritable (world σ) →
  let σ' := state_after (save_ckpt name) σ in
  outcome_of (save_ckpt name) σ
  = Raise (save_error (world σ) (save_path (agent σ) name))
  ∧ files (world σ') = files (world σ)
  ∧ stdout (world σ') = stdout (world σ)
  ∧ residency (module (net (agent σ'))) = Host.
Proof.
  intros Hw. unfold outcome_of, state_after. rewrite save_ckpt_run. simpl.
  by rewrite (bool_decide_true _ Hw).
Qed.

(** The sample agent saving [best] where that file cannot be written. *)
Lemma save_ckpt_failure_sample :
  save_path (agent Scenarios.readonly_state) (PyStr "best")
    ∈ unwritable (world Scenarios.readonly_state)
  ∧ residency (module (net (agent Scenarios.readonly_state))) = Cuda
  ∧ outcome_of (save_ckpt (PyStr "best")) Scenarios.readonly_state
    = Raise (save_error (world Scenarios.readonly_state) "model/best.pth")
  ∧ files (world (state_after (save_ckpt (PyStr "best")) Scenarios.readonly_state))
    = files (world Scenarios.readonly_state)
  ∧ residency (module (net (agent
      (state_after (save_ckpt (PyStr "best")) Scenarios.readonly_state)))) = Host.
Proof.
  assert (H1 : save_path (agent Scenarios.readonly_state) (PyStr "best")
                 ∈ unwritable (world Scenarios.readonly_state)) by compute_done.
  split; [exact H1|]. split; [reflexivity|].
  destruct (save_ckpt_failure (PyStr "best") Scenarios.readonly_state H1)
    as (Hout & Hfiles & _ & Hres).
  split; [exact Hout|]. split; [exact Hfiles | exact Hres].
Defined.

(** X2.  However [save_ckpt] ends, it leaves the clock, the optimizer, the
    scheduler, the parameter values, their gradients, the training flag,
    both writers and the directories as they were, makes no call into
    autograd or the optimizer, and changes no file but the one at the
    resolved path.  It completes exactly when that path can be written. *)
Theorem save_ckpt_frame (name : PyObj) (σ : State) :
  let a := agent σ in
  let a' := agent (state_after (save_ckpt name) σ) in
  let w' := world (state_after (save_ckpt name) σ) in
  clock a' = clock a ∧ optimizer a' = optimizer a ∧ scheduler a' = scheduler a
  ∧ params (module (net a')) = params (module (net a))
  ∧ grads (module (net a')) = grads (module (net a))
  ∧ training (module (net a')) = training (module (net a))
  ∧ data_parallel (net a') = data_parallel (net a)
  ∧ train_tb a' = train_tb a ∧ val_tb a' = val_tb a
  ∧ model_dir a' = model_dir a ∧ log_dir a' = log_dir a
  ∧ torch_calls w' = torch_calls (world σ)
  ∧ (∀ p, p ≠ save_path a name → files w' !! p = files (world σ) !! p)
  ∧ (outcome_of (save_ckpt name) σ = Return tt
     ↔ save_path a name ∉ unwritable (world σ)).
Proof.
  unfold state_after, outcome_of. rewrite save_ckpt_run. simpl.
  case_bool_decide as Hw; simpl.
  - repeat split; done.
  - repeat split; try done. intros p Hp. by rewrite lookup_insert_ne.
Qed.

(** X3.  A second completed save that resolves to the path of an earlier
    one replaces the file: the path then holds the record of the second
    save only, and the set of files is the same as after the first. *)
Theorem save_ckpt_overwrites (n1 n2 : PyObj) (σ σ1 σ' σ2 : State) :
  save_ckpt n1 σ = (Return tt, σ1) →
  save_path (agent σ') n2 = save_path (agent σ) n1 →
  files (world σ') = files (world σ1) →
  save_ckpt n2 σ' = (Return tt, σ2) →
  files (world σ2) = <[save_path (agent σ) n1 := saved_checkpoint (agent σ')]>
                       (files (world σ))
  ∧ files (world σ2) !! save_path (agent σ) n1 = Some (saved_checkpoint (agent σ'))
  ∧ dom (files (world σ2)) = dom (files (world σ1)).
Proof.
  intros H1 Hp Hf H2. completed_save H1. completed_save H2.
  simpl in *. rewrite Hf, Hp. rewrite insert_insert_eq.
  split; [done|]. split; [by rewrite lookup_insert_eq|].
  rewrite !dom_insert_L. set_solver.
Qed.

(** The sample agent saving [latest] at epoch 1 and again at epoch 7. *)
Lemma save_ckpt_overwrites_sample :
  save_ckpt (PyStr "latest") Sample.sample_state = (Return tt, Scenarios.latest_state)
  ∧ save_path (agent Scenarios.later_latest) (PyStr "latest")
    = save_path (agent Sample.sample_state) (PyStr "latest")
  ∧ files (world Scenarios.later_latest) = files (world Scenarios.latest_state)
  ∧ save_ckpt (PyStr "latest") Scenarios.later_latest
    = (Return tt, Scenarios.relatest_state)
  ∧ files (world Scenarios.relatest_state) !! "model/latest.pth"
    = Some (saved_checkpoint (agent Scenarios.later_latest))
  ∧ dom (files (world Scenarios.relatest_state))
    = dom (files (world Scenarios.latest_state)).
Proof.
  assert (H1 : save_ckpt (PyStr "latest") Sample.sample_state
               = (Return tt, Scenarios.latest_state)) by (vm_compute; reflexivity).
  assert (H2 : save_path (agent Scenarios.later_latest) (PyStr "latest")
               = save_path (agent Sample.sample_state) (PyStr "latest"))
    by reflexivity.
  assert (H3 : files (world Scenarios.later_latest) = files (world Scenarios.latest_state))
    by reflexivity.
  assert (H4 : save_ckpt (PyStr "latest") Scenarios.later_latest
               = (Return tt, Scenarios.relatest_state)) by (vm_compute; reflexivity).
  split; [exact H1|]. split; [exact H2|]. split; [exact H3|]. split; [exact H4|].
  destruct (save_ckpt_overwrites _ _ _ _ _ _ H1 H2 H3 H4) as (_ & Hfile & Hdom).
  split; [exact Hfile | exact Hdom].
Defined.

(** ** Loading *)

(** X4.  However [load_ckpt] ends, it writes no file, makes no call into
    autograd or the optimizer, and leaves where the parameters reside, the
    training flag, the gradients, the shape of the network and of the
    optimizer, both writers and the directories as they were. *)
Theorem load_ckpt_frame (name : PyObj) (σ : State) :
  let a := agent σ in
  let a' := agent (state_after (load_ckpt name) σ) in
  let w' := world (state_after (load_ckpt name) σ) in
  files w' = files (world σ)
  ∧ unwritable w' = unwritable (world σ)
  ∧ grad_enabled w' = grad_enabled (world σ)
  ∧ torch_calls w' = torch_calls (world σ)
  ∧ residency (module (net a')) = residency (module (net a))
  ∧ training (module (net a')) = training (module (net a))
  ∧ grads (module (net a')) = grads (module (net a))
  ∧ data_parallel (net a') = data_parallel (net a)
  ∧ length (params (module (net a'))) = length (params (module (net a)))
  ∧ length (param_groups (optimizer a')) = length (param_groups (optimizer a))
  ∧ train_tb a' = train_tb a ∧ val_tb a' = val_tb a
  ∧ model_dir a' = model_dir a ∧ log_dir a' = log_dir a.
Proof.
  unfold state_after. rewrite load_ckpt_cases. simpl.
  destruct (files (world σ) !! load_path (agent σ) name) as [c|]; simpl;
    [|repeat split; done].
  case_bool_decide as Hs; simpl;
    [|repeat split; try done; apply copy_values_length].
  case_bool_decide as Hg; simpl; repeat split; try done; apply copy_values_length.
Qed.

(** X5.  With the file in place, [load_ckpt] prints its message before
    it restores anything and completes exactly when the checkpoint fits
    the network's shape and the optimizer's number of groups.  Either
    refusal comes after the network has been written to: a checkpoint of
    another shape raises a [RuntimeError] with every parameter it has a
    value for overwritten and the others kept, one that fits the network
    but not the optimizer raises the optimizer's [ValueError] with all
    parameters overwritten; in both the optimizer, the scheduler and the
    clock are still the old ones. *)
Theorem load_ckpt_refused (name : PyObj) (σ : State) (c : Checkpoint) :
  files (world σ) !! load_path (agent σ) name = Some c →
  let a := agent σ in
  let a' := agent (state_after (load_ckpt name) σ) in
  let values := sd_values (ck_model_state_dict c) in
  let shape_ok := length values = length (params (module (net a))) in
  let groups_ok := length (od_param_groups (ck_optimizer_state_dict c))
                   = length (param_groups (optimizer a)) in
  stdout (world (state_after (load_ckpt name) σ))
  = stdout (world σ) ++ ["Checkpoint loaded from " +:+ load_path a name]
  ∧ (outcome_of (load_ckpt name) σ = Return tt ↔ shape_ok ∧ groups_ok)
  ∧ (¬ (shape_ok ∧ groups_ok) →
     optimizer a' = optimizer a ∧ scheduler a' = scheduler a ∧ clock a' = clock a
     ∧ length (params (module (net a'))) = length (params (module (net a)))
     ∧ (∀ i v, i < length (params (module (net a))) → values !! i = Some v →
               params (module (net a')) !! i = Some v)%nat
     ∧ (∀ i, values !! i = None →
             params (module (net a')) !! i = params (module (net a)) !! i))
  ∧ (¬ shape_ok → ∃ msg, outcome_of (load_ckpt name) σ = Raise (RuntimeError msg))
  ∧ (shape_ok → ¬ groups_ok →
     outcome_of (load_ckpt name) σ
     = Raise (ValueError "loaded state dict has a different number of parameter groups")
     ∧ params (module (net a')) = values).
Proof.
  intros Hfile. unfold state_after, outcome_of. rewrite load_ckpt_cases. cbn zeta.
  rewrite Hfile.
  assert (Hcopy : ∀ ps : list Q,
    length (copy_values (sd_values (ck_model_state_dict c)) ps) = length ps
    ∧ (∀ i v, i < length ps → sd_values (ck_model_state_dict c) !! i = Some v →
              copy_values (sd_values (ck_model_state_dict c)) ps !! i = Some v)%nat
    ∧ (∀ i, sd_values (ck_model_state_dict c) !! i = None →
            copy_values (sd_values (ck_model_state_dict c)) ps !! i = ps !! i)).
  { intros ps. split; [apply copy_values_length|]. split.
    - intros i v Hi Hv. rewrite copy_values_lookup, Hv.
      destruct (lookup_lt_is_Some_2 ps i Hi) as [x ->]. done.
    - intros i Hv. rewrite copy_values_lookup, Hv. by destruct (ps !! i). }
  case_bool_decide as Hs; [case_bool_decide as Hg|]; simpl.
  - split; [done|]. split; [done|]. split; [intros Hno; by destruct Hno|].
    split; [done|]. done.
  - split; [done|]. split; [split; [done | by intros [_ ?]]|].
    split; [intros _; repeat split; try done; apply Hcopy|].
    split; [done|]. intros _ _. split; [done|]. by apply copy_values_full.
  - split; [done|]. split; [split; [done | by intros [? _]]|].
    split; [intros _; repeat split; try done; apply Hcopy|].
    split; [by eauto|]. done.
Qed.

(** The sample agent finding a checkpoint of a wider network, and one
    whose optimizer has two groups: both loads fail with the parameters
    replaced and the clock kept. *)
Lemma load_ckpt_refused_sample :
  files (world Scenarios.wide_state)
    !! load_path (agent Scenarios.wide_state) (PyStr "latest")
  = Some Scenarios.wide_checkpoint
  ∧ length (sd_values (ck_model_state_dict Scenarios.wide_checkpoint))
    ≠ length (params (module (net (agent Scenarios.wide_state))))
  ∧ (∃ msg, outcome_of (load_ckpt (PyStr "latest")) Scenarios.wide_state
            = Raise (RuntimeError msg))
  ∧ params (module (net (agent
      (state_after (load_ckpt (PyStr "latest")) Scenarios.wide_state))))
    = [7#1; 8#1]%Q
  ∧ clock (agent (state_after (load_ckpt (PyStr "latest")) Scenarios.wide_state))
    = clock (agent Scenarios.wide_state)
  ∧ files (world Scenarios.foreign_state)
      !! load_path (agent Scenarios.foreign_state) (PyStr "latest")
    = Some Scenarios.foreign_checkpoint
  ∧ outcome_of (load_ckpt (PyStr "latest")) Scenarios.foreign_state
    = Raise (ValueError "loaded state dict has a different number of parameter groups")
  ∧ params (module (net (agent
      (state_after (load_ckpt (PyStr "latest")) Scenarios.foreign_state))))
    = [7#1; 8#1]%Q.
Proof.
  assert (H1 : files (world Scenarios.wide_state)
                 !! load_path (agent Scenarios.wide_state) (PyStr "latest")
               = Some Scenarios.wide_checkpoint) by (vm_compute; reflexivity).
  assert (H2 : length (sd_values (ck_model_state_dict Scenarios.wide_checkpoint))
               ≠ length (params (module (net (agent Scenarios.wide_state)))))
    by (simpl; lia).
  assert (H3 : files (world Scenarios.foreign_state)
                 !! load_path (agent Scenarios.foreign_state) (PyStr "latest")
               = Some Scenarios.foreign_checkpoint) by (vm_compute; reflexivity).
  split; [exact H1|]. split; [exact H2|].
  destruct (load_ckpt_refused _ _ _ H1) as (_ & _ & Hkeep & Hshape & _).
  split; [exact (Hshape H2)|].
  destruct Hkeep as (_ & _ & Hclock & _); [intros [Hs _]; exact (H2 Hs)|].
  split; [vm_compute; reflexivity|]. split; [exact Hclock|].
  split; [exact H3|].
  destruct (load_ckpt_refused _ _ _ H3) as (_ & _ & _ & _ & Hgroups).
  destruct Hgroups as (Hout & Hparams); [reflexivity | simpl; lia |].
  split; [exact Hout | exact Hparams].
Defined.

(** X6.  A load straight after a completed save, under a name resolving
    to the path written, completes and leaves the agent exactly as the
    save left it, with no file changed and the two messages printed;
    when the parameters were on the device before the save, that is the
    agent as it was before the save. *)
Theorem save_then_load_identity (sname lname : PyObj) (σ σ1 : State) :
  save_ckpt sname σ = (Return tt, σ1) →
  load_path (agent σ1) lname = save_path (agent σ) sname →
  ∃ σ2, load_ckpt lname σ1 = (Return tt, σ2)
        ∧ agent σ2 = agent σ1
        ∧ files (world σ2) = files (world σ1)
        ∧ stdout (world σ2)
          = stdout (world σ) ++ ["Checkpoint saved at " +:+ save_path (agent σ) sname;
                                 "Checkpoint loaded from " +:+ save_path (agent σ) sname]
        ∧ (residency (module (net (agent σ))) = Cuda → agent σ2 = agent σ).
Proof.
  intros Hsave Hpath. completed_save Hsave.
  rewrite load_ckpt_cases. cbn zeta. rewrite Hpath. simpl.
  rewrite lookup_insert_eq. simpl.
  rewrite !bool_decide_true by done.
  eexists. split; [done|]. simpl.
  assert (Hid : loaded_agent (saved_checkpoint (agent σ))
                  (set_net (set_module (Module_cuda (module (net (agent σ))))
                                       (net (agent σ))) (agent σ))
                = set_net (set_module (Module_cuda (module (net (agent σ))))
                                      (net (agent σ))) (agent σ)).
  { destruct (agent σ) as [? ? [? ?] ? ? [dp [p g r t]] ? [? ?] [? ? ? ?] ? ?].
    reflexivity. }
  split; [done|]. split; [done|]. split; [by rewrite <- app_assoc|].
  intros Hdev. rewrite Hid. by apply set_module_cuda_id.
Qed.

(** The sample agent: saved by epoch at epoch 5, loaded as epoch 5. *)
Lemma save_then_load_identity_sample :
  save_ckpt PyNone Sample.later_state = (Return tt, Sample.saved_state)
  ∧ load_path (agent Sample.saved_state) (PyInt 5)
    = save_path (agent Sample.later_state) PyNone
  ∧ residency (module (net (agent Sample.later_state))) = Cuda
  ∧ ∃ σ2, load_ckpt (PyInt 5) Sample.saved_state = (Return tt, σ2)
          ∧ agent σ2 = agent Sample.later_state.
Proof.
  assert (H1 : save_ckpt PyNone Sample.later_state = (Return tt, Sample.saved_state))
    by (vm_compute; reflexivity).
  assert (H2 : load_path (agent Sample.saved_state) (PyInt 5)
               = save_path (agent Sample.later_state) PyNone)
    by (vm_compute; reflexivity).
  assert (H3 : residency (module (net (agent Sample.later_state))) = Cuda)
    by reflexivity.
  split; [exact H1|]. split; [exact H2|]. split; [exact H3|].
  destruct (save_then_load_identity PyNone (PyInt 5) _ _ H1 H2)
    as (σ2 & Hload & _ & _ & _ & Hsame).
  exists σ2. split; [exact Hload | exact (Hsame H3)].
Defined.

(** X7.  Loading is idempotent: after a completed [load_ckpt], loading the
    same name again completes and leaves the agent as the first load left
    it. *)
Theorem load_ckpt_idempotent (name : PyObj) (σ σ1 : State) :
  load_ckpt name σ = (Return tt, σ1) →
  ∃ σ2, load_ckpt name σ1 = (Return tt, σ2) ∧ agent σ2 = agent σ1.
Proof.
  rewrite load_ckpt_cases. cbn zeta.
  destruct (files (world σ) !! load_path (agent σ) name) as [c|] eqn:Hfile; [|done].
  case_bool_decide as Hs; [|done]. case_bool_decide as Hg; [|done].
  intros [= <-]. rewrite load_ckpt_cases. cbn zeta.
  cbn [world files agent set_stdout].
  change (load_path (loaded_agent c (agent σ)) name) with (load_path (agent σ) name).
  rewrite Hfile. simpl.
  rewrite !bool_decide_true by done.
  eexists. split; [done|]. simpl.
  destruct (agent σ) as [? ? [? ?] ? ? [dp [p g r t]] ? [? ?] [? ? ? ?] ? ?].
  reflexivity.
Qed.

(** The sample agent loading epoch 5 twice. *)
Lemma load_ckpt_idempotent_sample :
  load_ckpt (PyInt 5) Sample.saved_state = (Return tt, Scenarios.loaded_state)
  ∧ ∃ σ2, load_ckpt (PyInt 5) Scenarios.loaded_state = (Return tt, σ2)
          ∧ agent σ2 = agent Scenarios.loaded_state.
Proof.
  assert (H1 : load_ckpt (PyInt 5) Sample.saved_state
               = (Return tt, Scenarios.loaded_state)) by (vm_compute; reflexivity).
  split; [exact H1|]. exact (load_ckpt_idempotent _ _ _ H1).
Defined.

(** ** Checkpoint names *)

Lemma string_app_inv_tail (a b s : string) : a +:+ s = b +:+ s → a = b.
Proof.
  revert b. induction a as [|c a IH]; intros [|c' b] Heq; simpl in *.
  - done.
  - apply (f_equal String.length) in Heq.
    simpl in Heq. rewrite !string_length_app in Heq. simpl in Heq. lia.
  - apply (f_equal String.length) in Heq.
    simpl in Heq. rewrite !string_length_app in Heq. simpl in Heq. lia.
  - injection Heq as -> Heq. f_equal. by apply IH.
Qed.

Lemma epoch_path_inj (d : string) (e1 e2 : Z) :
  path_join d ("ckpt_epoch" +:+ pretty e1 +:+ ".pth")
  = path_join d ("ckpt_epoch" +:+ pretty e2 +:+ ".pth") → e1 = e2.
Proof.
  intros Heq. apply path_join_relative in Heq; [|done..].
  apply (inj (String.append "ckpt_epoch")) in Heq.
  apply string_app_inv_tail in Heq. by apply (inj pretty) in Heq.
Qed.

(** X8.  In one model directory, saves by epoch write the same file
    exactly when the epochs are equal, [load_ckpt(e)] resolves the file of
    a save by epoch exactly when [e] is that epoch, and [load_ckpt] of
    ["latest"] never resolves a file saved by epoch. *)
Theorem epoch_checkpoints_distinct (a1 a2 : Agent) :
  model_dir a1 = model_dir a2 →
  (save_path a1 PyNone = save_path a2 PyNone ↔ epoch (clock a1) = epoch (clock a2))
  ∧ (∀ e : Z, load_path a1 (PyInt e) = save_path a2 PyNone ↔ e = epoch (clock a2))
  ∧ load_path a1 (PyStr "latest") ≠ save_path a2 PyNone.
Proof.
  intros Hdir. unfold save_path, load_path. simpl. rewrite Hdir.
  split; [|split].
  - split; [apply epoch_path_inj | by intros ->].
  - intros e. split; [apply epoch_path_inj | by intros ->].
  - intros Heq. by apply path_join_relative in Heq.
Qed.

(** The sample agent at epoch 1 and at epoch 5. *)
Lemma epoch_checkpoints_distinct_sample :
  model_dir (agent Sample.sample_state) = model_dir (agent Sample.later_state)
  ∧ save_path (agent Sample.sample_state) PyNone
    ≠ save_path (agent Sample.later_state) PyNone
  ∧ load_path (agent Sample.sample_state) (PyInt 5)
    = save_path (agent Sample.later_state) PyNone.
Proof.
  assert (H1 : model_dir (agent Sample.sample_state)
               = model_dir (agent Sample.later_state)) by reflexivity.
  split; [exact H1|].
  destruct (epoch_checkpoints_distinct _ _ H1) as (Hsave & Hload & _).
  split.
  - intros Heq. apply Hsave in Heq. simpl in Heq. lia.
  - apply Hload. reflexivity.
Defined.

(** X9.  A checkpoint saved by epoch survives a later save by epoch at
    another epoch: loading the earlier epoch afterwards brings back the
    clock, the optimizer, the scheduler and the parameter values of the
    earlier state. *)
Theorem older_checkpoint_survives (σ σ1 σa σ2 : State) :
  save_ckpt PyNone σ = (Return tt, σ1) →
  model_dir (agent σa) = model_dir (agent σ) →
  files (world σa) !! save_path (agent σ) PyNone
    = files (world σ1) !! save_path (agent σ) PyNone →
  epoch (clock (agent σa)) ≠ epoch (clock (agent σ)) →
  save_ckpt PyNone σa = (Return tt, σ2) →
  length (params (module (net (agent σa)))) = length (params (module (net (agent σ)))) →
  length (param_groups (optimizer (agent σa)))
    = length (param_groups (optimizer (agent σ))) →
  ∃ σ3, load_ckpt (PyInt (epoch (clock (agent σ)))) σ2 = (Return tt, σ3)
        ∧ clock (agent σ3) = clock (agent σ)
        ∧ optimizer (agent σ3) = optimizer (agent σ)
        ∧ scheduler (agent σ3) = scheduler (agent σ)
        ∧ params (module (net (agent σ3))) = params (module (net (agent σ))).
Proof.
  intros H1 Hdir Hfile Hepoch H2 Hs Hg.
  completed_save H1. completed_save H2.
  apply load_restores_saved; simpl; [|done|done].
  assert (Hsame : load_path (set_net (set_module (Module_cuda (module (net (agent σa))))
                                                 (net (agent σa))) (agent σa))
                            (PyInt (epoch (clock (agent σ))))
                  = save_path (agent σ) PyNone).
  { unfold load_path, save_path. simpl. by rewrite Hdir. }
  rewrite Hsame. rewrite lookup_insert_ne.
  - rewrite Hfile. simpl. by rewrite lookup_insert_eq.
  - intros Heq. apply Hepoch.
    by apply (epoch_checkpoints_distinct (agent σa) (agent σ) Hdir).
Qed.

(** The sample agent saved at epoch 1 and at epoch 5, resumed from 1. *)
Lemma older_checkpoint_survives_sample :
  save_ckpt PyNone Sample.sample_state = (Return tt, Scenarios.epoch1_state)
  ∧ epoch (clock (agent Scenarios.epoch5_state))
    ≠ epoch (clock (agent Sample.sample_state))
  ∧ save_ckpt PyNone Scenarios.epoch5_state = (Return tt, Scenarios.both_epochs_state)
  ∧ ∃ σ3, load_ckpt (PyInt 1) Scenarios.both_epochs_state = (Return tt, σ3)
          ∧ clock (agent σ3) = {| epoch := 1; step := 0 |}.
Proof.
  assert (H1 : save_ckpt PyNone Sample.sample_state
               = (Return tt, Scenarios.epoch1_state)) by (vm_compute; reflexivity).
  assert (H2 : model_dir (agent Scenarios.epoch5_state)
               = model_dir (agent Sample.sample_state)) by reflexivity.
  assert (H3 : files (world Scenarios.epoch5_state)
                 !! save_path (agent Sample.sample_state) PyNone
               = files (world Scenarios.epoch1_state)
                 !! save_path (agent Sample.sample_state) PyNone) by reflexivity.
  assert (H4 : epoch (clock (agent Scenarios.epoch5_state))
               ≠ epoch (clock (agent Sample.sample_state))) by (simpl; lia).
  assert (H5 : save_ckpt PyNone Scenarios.epoch5_state
               = (Return tt, Scenarios.both_epochs_state)) by (vm_compute; reflexivity).
  assert (H6 : length (params (module (net (agent Scenarios.epoch5_state))))
               = length (params (module (net (agent Sample.sample_state)))))
    by reflexivity.
  assert (H7 : length (param_groups (optimizer (agent Scenarios.epoch5_state)))
               = length (param_groups (optimizer (agent Sample.sample_state))))
    by reflexivity.
  split; [exact H1|]. split; [exact H4|]. split; [exact H5|].
  destruct (older_checkpoint_survives _ _ _ _ H1 H2 H3 H4 H5 H6 H7)
    as (σ3 & Hload & Hclock & _).
  exists σ3. split; [exact Hload | exact Hclock].
Defined.

(** X10.  The two namings that round-trip: a save as ["latest"] loaded as
    ["latest"], and a save by epoch loaded by that epoch's number.  From
    any later state of an agent of the same shape and model directory,
    while the file is the one written, the load completes and brings back
    the saved clock, optimizer, scheduler and parameter values. *)
Theorem roundtrip_names (σ σ1 σ' : State) (sname lname : PyObj) :
  (sname = PyStr "latest" ∧ lname = PyStr "latest")
  ∨ (sname = PyNone ∧ lname = PyInt (epoch (clock (agent σ)))) →
  save_ckpt sname σ = (Return tt, σ1) →
  model_dir (agent σ') = model_dir (agent σ) →
  files (world σ') !! save_path (agent σ) sname
    = files (world σ1) !! save_path (agent σ) sname →
  length (params (module (net (agent σ')))) = length (params (module (net (agent σ)))) →
  length (param_groups (optimizer (agent σ')))
    = length (param_groups (optimizer (agent σ))) →
  ∃ σ2, load_ckpt lname σ' = (Return tt, σ2)
        ∧ clock (agent σ2) = clock (agent σ)
        ∧ optimizer (agent σ2) = optimizer (agent σ)
        ∧ scheduler (agent σ2) = scheduler (agent σ)
        ∧ params (module (net (agent σ2))) = params (module (net (agent σ))).
Proof.
  intros Hnames H1 Hdir Hfile Hs Hg. completed_save H1.
  apply load_restores_saved; [|done|done].
  assert (Hsame : load_path (agent σ') lname = save_path (agent σ) sname).
  { unfold load_path, save_path. destruct Hnames as [[-> ->] | [-> ->]];
      simpl; by rewrite Hdir. }
  rewrite Hsame, Hfile. simpl. by rewrite lookup_insert_eq.
Qed.

(** The sample agent saved as [latest] at epoch 1, loaded at epoch 7. *)
Lemma roundtrip_names_sample :
  save_ckpt (PyStr "latest") Sample.sample_state = (Return tt, Scenarios.latest_state)
  ∧ clock (agent Scenarios.later_latest) = {| epoch := 7; step := 60 |}
  ∧ ∃ σ2, load_ckpt (PyStr "latest") Scenarios.later_latest = (Return tt, σ2)
          ∧ clock (agent σ2) = {| epoch := 1; step := 0 |}.
Proof.
  assert (H0 : (PyStr "latest" = PyStr "latest" ∧ PyStr "latest" = PyStr "latest")
               ∨ (PyStr "latest" = PyNone
                  ∧ PyStr "latest" = PyInt (epoch (clock (agent Sample.sample_state)))))
    by (left; split; reflexivity).
  assert (H1 : save_ckpt (PyStr "latest") Sample.sample_state
               = (Return tt, Scenarios.latest_state)) by (vm_compute; reflexivity).
  assert (H2 : model_dir (agent Scenarios.later_latest)
               = model_dir (agent Sample.sample_state)) by reflexivity.
  assert (H3 : files (world Scenarios.later_latest)
                 !! save_path (agent Sample.sample_state) (PyStr "latest")
               = files (world Scenarios.latest_state)
                 !! save_path (agent Sample.sample_state) (PyStr "latest"))
    by reflexivity.
  assert (H4 : length (params (module (net (agent Scenarios.later_latest))))
               = length (params (module (net (agent Sample.sample_state)))))
    by reflexivity.
  assert (H5 : length (param_groups (optimizer (agent Scenarios.later_latest)))
               = length (param_groups (optimizer (agent Sample.sample_state))))
    by reflexivity.
  split; [exact H1|]. split; [reflexivity|].
  destruct (roundtrip_names _ _ _ _ _ H0 H1 H2 H3 H4 H5) as (σ2 & Hload & Hclock & _).
  exists σ2. split; [exact Hload | exact Hclock].
Defined.

(** ** The optimisation step *)

Lemma fold_grad_add_none (l : list (option (list Q))) :
  Forall (λ g, g = None) l → fold_left grad_add l None = None.
Proof. induction 1 as [|g l -> _ IH]; simpl; done. Qed.

Lemma no_grad_total (d : LossDict) : ¬ has_grad d → spec_total_grad d = None.
Proof.
  intros Hno. apply fold_grad_add_none. unfold dict_values.
  induction d as [|kv d IH]; simpl; constructor.
  - destruct (t_grad kv.2) as [g|] eqn:Hg; [|done].
    exfalso. apply Hno. apply Exists_cons_hd. by rewrite Hg.
  - apply IH. intros Hex. apply Hno. by apply Exists_cons_tl.
Qed.

Section OptimisationStep.

Context `{External}.

(** X11.  [update_network] completes exactly when some loss term is
    attached to the autograd graph.  Otherwise it raises at [backward]
    ([AttributeError] for the empty dictionary, [RuntimeError] for a
    detached loss) with the gradients already cleared: the parameters and
    the optimizer are untouched, and clearing is the only call made. *)
Theorem update_network_completes_iff (d : LossDict) (σ : State) :
  let σ' := state_after (update_network d) σ in
  (outcome_of (update_network d) σ = Return tt ↔ has_grad d)
  ∧ (d = [] → outcome_of (update_network d) σ
               = Raise (AttributeError "'int' object has no attribute 'backward'"))
  ∧ (d ≠ [] → ¬ has_grad d →
     outcome_of (update_network d) σ
     = Raise (RuntimeError "element 0 of tensors does not require grad and does not have a grad_fn"))
  ∧ (¬ has_grad d →
     params (module (net (agent σ'))) = params (module (net (agent σ)))
     ∧ optimizer (agent σ') = optimizer (agent σ)
     ∧ grads (module (net (agent σ'))) = None
     ∧ torch_calls (world σ') = torch_calls (world σ) ++ [CallZeroGrad]).
Proof.
  unfold outcome_of, state_after. rewrite update_network_run. cbn zeta.
  destruct (decide (has_grad d)) as [Hg | Hno].
  - destruct (has_grad_total d Hg) as [Hne [g Hgrad]].
    destruct (py_sum_tensors d Hne) as (t & -> & _ & Htg).
    rewrite Htg, Hgrad. simpl. split; [done|]. split; [done|]. split; done.
  - pose proof (no_grad_total d Hno) as Hnone.
    destruct d as [|kv d].
    + simpl. split; [split; [done | intros Hg; by apply Exists_nil in Hg] |].
      split; [done|]. split; done.
    + destruct (py_sum_tensors (kv :: d)) as (t & -> & _ & Htg); [done|].
      rewrite Htg, Hnone. simpl. split; [split; done |]. split; [done|]. split; done.
Qed.

(** X12.  When a read-only [forward] returns outputs and losses with a
    term attached to the autograd graph, [train_func] completes and
    returns them; it has made exactly one optimizer step and appended one
    entry per loss term at the current step to the train writer.  It
    leaves the network in training mode and does not touch the validation
    writer, the clock, the scheduler or any file. *)
Theorem train_func_step (cls : AgentClass) (data : Data) (σ : State)
    (outputs : Outputs) (losses : LossDict) :
  forward_readonly cls →
  outcome_of (forward cls data) (state_after net_train σ)
    = Return (FwdPair outputs losses) →
  has_grad losses →
  ∃ σ', train_func cls data σ = (Return (outputs, losses), σ')
    ∧ train_tb (agent σ')
      = train_tb (agent σ) ++ map (loss_entry (step (clock (agent σ)))) losses
    ∧ val_tb (agent σ') = val_tb (agent σ)
    ∧ clock (agent σ') = clock (agent σ)
    ∧ scheduler (agent σ') = scheduler (agent σ)
    ∧ files (world σ') = files (world σ)
    ∧ training (module (net (agent σ'))) = true
    ∧ count_steps (torch_calls (world σ')) = S (count_steps (torch_calls (world σ))).
Proof.
  intros Hro Hfwd Hg.
  unfold train_func, bind.
  destruct (net_train σ) as [r σt] eqn:Ht.
  assert (r = Return tt ∧ σt = state_after net_train σ) as [-> ->].
  { unfold state_after. rewrite Ht. by injection Ht as <- _. }
  rewrite (forward_readonly_run cls data _ Hro), Hfwd. simpl.
  rewrite update_network_run. cbn zeta.
  destruct (has_grad_total losses Hg) as [Hne [g Hgrad]].
  destruct (py_sum_tensors losses Hne) as (t & -> & _ & Htg).
  rewrite Htg, Hgrad. rewrite record_losses_run. simpl.
  eexists. split; [done|]. simpl. repeat split; try done.
  rewrite count_steps_app.
  replace (count_steps [CallZeroGrad; CallBackward t; CallOptimizerStep (Some g)])
    with 1%nat by reflexivity.
  lia.
Qed.

End OptimisationStep.

(** A detached loss on the sample agent. *)
Lemma update_network_completes_iff_sample :
  Scenarios.detached_loss ≠ []
  ∧ ¬ has_grad Scenarios.detached_loss
  ∧ outcome_of (@update_network Sample.sample_external Scenarios.detached_loss)
               Sample.later_state
    = Raise (RuntimeError "element 0 of tensors does not require grad and does not have a grad_fn")
  ∧ params (module (net (agent
      (state_after (@update_network Sample.sample_external Scenarios.detached_loss)
                   Sample.later_state))))
    = params (module (net (agent Sample.later_state))).
Proof.
  assert (H1 : Scenarios.detached_loss ≠ []) by discriminate.
  assert (H2 : ¬ has_grad Scenarios.detached_loss).
  { intros Hex. apply Exists_cons in Hex as [[g Hg] | Hex]; [discriminate Hg|].
    by apply Exists_nil in Hex. }
  split; [exact H1|]. split; [exact H2|].
  destruct (@update_network_completes_iff Sample.sample_external
              Scenarios.detached_loss Sample.later_state) as (_ & _ & Hraise & Hkeep).
  split; [exact (Hraise H1 H2)|]. exact (proj1 (Hkeep H2)).
Defined.

(** A training step of the sample subclass at step 40. *)
Lemma train_func_step_sample :
  forward_readonly Sample.MseAgent
  ∧ outcome_of (forward Sample.MseAgent [1]%Q) (state_after net_train Sample.later_state)
    = Return (FwdPair [1]%Q
                [("mse", {| t_value := (1#4)%Q; t_grad := Some [1#1; (-1)#2]%Q |})])
  ∧ has_grad [("mse", {| t_value := (1#4)%Q; t_grad := Some [1#1; (-1)#2]%Q |})]
  ∧ ∃ σ', @train_func Sample.sample_external Sample.MseAgent [1]%Q Sample.later_state
          = (Return ([1]%Q,
                     [("mse", {| t_value := (1#4)%Q; t_grad := Some [1#1; (-1)#2]%Q |})]),
             σ')
          ∧ train_tb (agent σ')
            = [{| sc_tag := "mse"; sc_value := (1#4)%Q; sc_step := 40 |}]
          ∧ clock (agent σ') = clock (agent Sample.later_state).
Proof.
  assert (H1 : forward_readonly Sample.MseAgent) by (intros data σ; reflexivity).
  assert (H2 : outcome_of (forward Sample.MseAgent [1]%Q)
                 (state_after net_train Sample.later_state)
               = Return (FwdPair [1]%Q
                   [("mse", {| t_value := (1#4)%Q; t_grad := Some [1#1; (-1)#2]%Q |})]))
    by reflexivity.
  assert (H3 : has_grad [("mse", {| t_value := (1#4)%Q;
                                    t_grad := Some [1#1; (-1)#2]%Q |})])
    by (apply Exists_cons_hd; simpl; eauto).
  split; [exact H1|]. split; [exact H2|]. split; [exact H3|].
  destruct (@train_func_step Sample.sample_external _ _ _ _ _ H1 H2 H3)
    as (σ' & Hrun & Htb & _ & Hclock & _).
  exists σ'. split; [exact Hrun|]. split; [exact Htb | exact Hclock].
Defined.

(** ** The validation step *)

(** X13.  [val_func] leaves the autograd mode as it found it, whatever
    [forward] does and however the call ends.  When a read-only [forward],
    run with gradient tracking off on the network in evaluation mode,
    returns outputs and losses, [val_func] completes and returns them,
    appends one entry per loss term at the current step to the validation
    writer, and leaves the train writer and the clock alone. *)
Theorem val_func_step (cls : AgentClass) (data : Data) (σ : State) :
  grad_enabled (world (state_after (val_func cls data) σ)) = grad_enabled (world σ)
  ∧ (forward_readonly cls →
     ∀ outputs losses,
       outcome_of (forward cls data)
         {| agent := agent (state_after net_eval σ);
            world := set_grad_enabled false (world σ) |}
       = Return (FwdPair outputs losses) →
       outcome_of (val_func cls data) σ = Return (outputs, losses)
       ∧ val_tb (agent (state_after (val_func cls data) σ))
         = val_tb (agent σ) ++ map (loss_entry (step (clock (agent σ)))) losses
       ∧ train_tb (agent (state_after (val_func cls data) σ)) = train_tb (agent σ)
       ∧ clock (agent (state_after (val_func cls data) σ)) = clock (agent σ)).
Proof.
  split.
  - unfold state_after, val_func, bind, no_grad, net_eval, upd_module, upd_agent. simpl.
    destruct (forward cls data _) as [[[|outputs losses]|e] σf]; simpl; try done.
    rewrite record_losses_run. simpl. by destruct (world σf).
  - intros Hro outputs losses Hfwd.
    unfold outcome_of, state_after, val_func, bind, no_grad, net_eval, upd_module,
      upd_agent in *. simpl in *.
    rewrite (forward_readonly_run cls data _ Hro). unfold outcome_of.
    destruct (forward cls data _) as [r σf]. simpl in Hfwd. subst r. simpl.
    rewrite record_losses_run. simpl. done.
Qed.

(** A validation step of the sample subclass: its loss comes back
    detached. *)
Lemma val_func_step_sample :
  forward_readonly Sample.MseAgent
  ∧ outcome_of (forward Sample.MseAgent [1]%Q)
      {| agent := agent (state_after net_eval Sample.later_state);
         world := set_grad_enabled false (world Sample.later_state) |}
    = Return (FwdPair [1]%Q [("mse", {| t_value := (1#4)%Q; t_grad := None |})])
  ∧ outcome_of (val_func Sample.MseAgent [1]%Q) Sample.later_state
    = Return ([1]%Q, [("mse", {| t_value := (1#4)%Q; t_grad := None |})])
  ∧ val_tb (agent (state_after (val_func Sample.MseAgent [1]%Q) Sample.later_state))
    = [{| sc_tag := "mse"; sc_value := (1#4)%Q; sc_step := 40 |}].
Proof.
  assert (H1 : forward_readonly Sample.MseAgent) by (intros data σ; reflexivity).
  assert (H2 : outcome_of (forward Sample.MseAgent [1]%Q)
                 {| agent := agent (state_after net_eval Sample.later_state);
                    world := set_grad_enabled false (world Sample.later_state) |}
               = Return (FwdPair [1]%Q
                           [("mse", {| t_value := (1#4)%Q; t_grad := None |})]))
    by reflexivity.
  split; [exact H1|]. split; [exact H2|].
  destruct (proj2 (val_func_step Sample.MseAgent [1]%Q Sample.later_state) H1 _ _ H2)
    as (Hout & Htb & _).
  split; [exact Hout | exact Htb].
Defined.

(** ** The learning rate, called again *)

Lemma assign_lrs_idem (gs : list ParamGroup) (lrs : list Q) :
  assign_lrs (assign_lrs gs lrs) lrs = assign_lrs gs lrs.
Proof.
  revert lrs. induction gs as [|g gs IH]; intros [|l lrs]; simpl; try done.
  by rewrite IH.
Qed.

Lemma assign_lrs_length (gs : list ParamGroup) (lrs : list Q) :
  length (assign_lrs gs lrs) = length gs.
Proof.
  revert lrs. induction gs as [|g gs IH]; intros [|l lrs]; simpl; try done.
  by rewrite IH.
Qed.

(** X14.  Two calls of [update_learning_rate] with the clock unchanged:
    both complete; after the second the scheduler's epoch, step size,
    decay factor and base rates and the optimizer's groups and state are
    what they were after the first; the train writer has gained two
    entries at the clock's epoch, the first with the rate from before the
    first call and the second with the rate the first call set. *)
Theorem update_learning_rate_twice (σ : State) (g : ParamGroup) :
  last (param_groups (optimizer (agent σ))) = Some g →
  step_size (scheduler (agent σ)) ≠ 0 →
  ∃ σ1 σ2 g1,
    update_learning_rate σ = (Return tt, σ1)
    ∧ update_learning_rate σ1 = (Return tt, σ2)
    ∧ last (param_groups (optimizer (agent σ1))) = Some g1
    ∧ last_epoch (scheduler (agent σ2)) = last_epoch (scheduler (agent σ1))
    ∧ step_size (scheduler (agent σ2)) = step_size (scheduler (agent σ1))
    ∧ gamma (scheduler (agent σ2)) = gamma (scheduler (agent σ1))
    ∧ base_lrs (scheduler (agent σ2)) = base_lrs (scheduler (agent σ1))
    ∧ param_groups (optimizer (agent σ2)) = param_groups (optimizer (agent σ1))
    ∧ opt_state (optimizer (agent σ2)) = opt_state (optimizer (agent σ1))
    ∧ train_tb (agent σ2)
      = train_tb (agent σ)
        ++ [{| sc_tag := "learning_rate"; sc_value := lr g;
               sc_step := epoch (clock (agent σ)) |};
            {| sc_tag := "learning_rate"; sc_value := lr g1;
               sc_step := epoch (clock (agent σ)) |}].
Proof.
  intros Hlast Hstep.
  rewrite (update_learning_rate_run σ g Hlast Hstep). cbn zeta.
  set (lrs := map _ (base_lrs _)).
  destruct (last (assign_lrs (param_groups (optimizer (agent σ))) lrs)) as [g1|] eqn:Hl1.
  - eexists _, _, g1. split; [done|].
    split; [by apply update_learning_rate_run|].
    split; [done|]. simpl. fold lrs. rewrite assign_lrs_idem.
    repeat (split; [done|]). by rewrite <- app_assoc.
  - apply last_None in Hl1. apply (f_equal length) in Hl1.
    rewrite assign_lrs_length in Hl1.
    destruct (param_groups (optimizer (agent σ))); done.
Qed.

(** The sample agent at epoch 5, called twice. *)
Lemma update_learning_rate_twice_sample :
  last (param_groups (optimizer (agent Sample.later_state)))
  = Some {| lr := (1#100)%Q; initial_lr := (1#100)%Q |}
  ∧ step_size (scheduler (agent Sample.later_state)) ≠ 0
  ∧ ∃ σ1 σ2,
      update_learning_rate Sample.later_state = (Return tt, σ1)
      ∧ update_learning_rate σ1 = (Return tt, σ2)
      ∧ last_epoch (scheduler (agent σ2)) = last_epoch (scheduler (agent σ1))
      ∧ param_groups (optimizer (agent σ2)) = param_groups (optimizer (agent σ1)).
Proof.
  assert (H1 : last (param_groups (optimizer (agent Sample.later_state)))
               = Some {| lr := (1#100)%Q; initial_lr := (1#100)%Q |}) by reflexivity.
  assert (H2 : step_size (scheduler (agent Sample.later_state)) ≠ 0) by (simpl; lia).
  split; [exact H1|]. split; [exact H2|].
  destruct (update_learning_rate_twice Sample.later_state _ H1 H2)
    as (σ1 & σ2 & g1 & Hr1 & Hr2 & _ & He & _ & _ & _ & Hg & _).
  exists σ1, σ2. split; [exact Hr1|]. split; [exact Hr2|]. split; [exact He | exact Hg].
Defined.

(** ** What training never touches *)

Lemma keeps_frame_refl (σ : State) : keeps_checkpoint_frame σ σ.
Proof. by repeat split. Qed.

Lemma keeps_frame_trans (σ1 σ2 σ3 : State) :
  keeps_checkpoint_frame σ1 σ2 → keeps_checkpoint_frame σ2 σ3 →
  keeps_checkpoint_frame σ1 σ3.
Proof.
  intros (?&?&?&?&?) (?&?&?&?&?). repeat split; congruence.
Qed.

Lemma record_losses_keeps (d : LossDict) (mode : string) (σ : State) :
  keeps_checkpoint_frame σ (state_after (record_losses d mode) σ).
Proof.
  unfold state_after. rewrite record_losses_run. simpl.
  repeat split; simpl; try done; by destruct (mode_writer mode).
Qed.

Lemma update_learning_rate_keeps (σ : State) :
  keeps_checkpoint_frame σ (state_after update_learning_rate σ).
Proof.
  unfold state_after, update_learning_rate, bind, self, last_group. simpl.
  destruct (last (param_groups (optimizer (agent σ)))) as [g|]; simpl;
    [|apply keeps_frame_refl].
  unfold scheduler_step, bind, self, StepLR_get_lr. simpl.
  case_bool_decide; simpl; by repeat split.
Qed.

Section Frames.

Context `{External}.

Lemma update_network_keeps (d : LossDict) (σ : State) :
  keeps_checkpoint_frame σ (state_after (update_network d) σ).
Proof.
  unfold state_after. rewrite update_network_run. cbn zeta.
  destruct (py_sum _) as [|t]; [by repeat split|].
  destruct (t_grad t); by repeat split.
Qed.

(** X15.  However they end, [update_network], [update_learning_rate] and
    [record_losses], and with a read-only [forward] also [train_func] and
    [val_func], leave the clock, the memory the parameters reside in, the
    model directory, every checkpoint file and the lines written by
    [print] as they were: the agent never advances its own clock, and
    these methods neither write a checkpoint nor print. *)
Theorem training_methods_frame (cls : AgentClass) (data : Data) (d : LossDict)
    (mode : string) (σ : State) :
  keeps_checkpoint_frame σ (state_after (update_network d) σ)
  ∧ keeps_checkpoint_frame σ (state_after update_learning_rate σ)
  ∧ keeps_checkpoint_frame σ (state_after (record_losses d mode) σ)
  ∧ (forward_readonly cls →
     keeps_checkpoint_frame σ (state_after (train_func cls data) σ)
     ∧ keeps_checkpoint_frame σ (state_after (val_func cls data) σ)).
Proof.
  split; [apply update_network_keeps|].
  split; [apply update_learning_rate_keeps|].
  split; [apply record_losses_keeps|].
  intros Hro. split.
  - unfold state_after, train_func, bind, net_train, upd_module, upd_agent. simpl.
    rewrite (forward_readonly_run cls data _ Hro).
    set (σt := {| agent := _; world := world σ |}).
    assert (Ht : keeps_checkpoint_frame σ σt) by (by repeat split).
    destruct (outcome_of (forward cls data) σt) as [[|outputs losses]|e]; simpl; try done.
    pose proof (update_network_keeps losses σt) as Hu. unfold state_after in Hu.
    destruct (update_network losses σt) as [[[]|e] σu]; simpl in *;
      [|by apply (keeps_frame_trans _ σt)].
    pose proof (record_losses_keeps losses "train" σu) as Hr. unfold state_after in Hr.
    destruct (record_losses losses "train" σu) as [[[]|e] σr]; simpl in *;
      apply (keeps_frame_trans _ σt); [done| |done|];
      by apply (keeps_frame_trans _ σu).
  - unfold state_after, val_func, bind, no_grad, net_eval, upd_module, upd_agent. simpl.
    rewrite (forward_readonly_run cls data _ Hro).
    destruct (outcome_of (forward cls data) _) as [[|outputs losses]|e]; simpl;
      try (by repeat split).
    set (σv := {| agent := _; world := _ |}).
    assert (Hv : keeps_checkpoint_frame σ σv) by (by repeat split).
    pose proof (record_losses_keeps losses "validation" σv) as Hr.
    unfold state_after in Hr.
    destruct (record_losses losses "validation" σv) as [[[]|e] σr]; simpl in *;
      by apply (keeps_frame_trans _ σv).
Qed.

(** ** Construction *)

(** X16.  [BaseAgent(config)] always raises [NotImplementedError], since
    [__init__] calls the unimplemented [build_net].  An exception of
    [build_net], and after it one of the move to the device, ends the
    construction and is what the constructor raises; so [get_agent]
    raises what the network factory raises.  Every agent a constructor
    does return has the built network's parameters on the device, in the
    mode the factory left them, the directories of the configuration and
    two writers without entries. *)
Theorem constructor_outcomes (cls : AgentClass) (config : Config) (w : World) :
  init BaseAgent config w = Raise NotImplementedError
  ∧ (∀ e, build_net cls config = Raise e → init cls config w = Raise e)
  ∧ (∀ n e, build_net cls config = Return n → device_error = Some e →
            init cls config w = Raise e)
  ∧ (∀ e, get_network config = Raise e → get_agent config w = Raise e)
  ∧ (∀ σ, init cls config w = Return σ →
       residency (module (net (agent σ))) = Cuda
       ∧ (∃ n, build_net cls config = Return n
               ∧ params (module (net (agent σ))) = params (module n)
               ∧ training (module (net (agent σ))) = training (module n))
       ∧ model_dir (agent σ) = cfg_model_dir config
       ∧ log_dir (agent σ) = cfg_log_dir config
       ∧ train_tb (agent σ) = [] ∧ val_tb (agent σ) = []).
Proof.
  split; [done|]. split.
  { intros e He. unfold init. by rewrite He. }
  split.
  { intros n e Hn He. unfold init. by rewrite Hn, He. }
  split.
  { intros e He. unfold get_agent, init. simpl. by rewrite He. }
  intros σ. unfold init, SummaryWriter.
  destruct (build_net cls config) as [n|e]; [|done].
  destruct device_error; [done|].
  destruct (set_optimizer _ _) as [[o s]|e]; [|done].
  repeat (destruct (SummaryWriter_error _); [done|]).
  intros [= <-]. simpl. repeat split; try done. by exists n.
Qed.

End Frames.

(** The sample subclass: a training step keeps the frame. *)
Lemma training_methods_frame_sample :
  forward_readonly Sample.MseAgent
  ∧ keeps_checkpoint_frame Sample.later_state
      (state_after (@train_func Sample.sample_external Sample.MseAgent [1]%Q)
                   Sample.later_state)
  ∧ keeps_checkpoint_frame Sample.later_state
      (state_after (val_func Sample.MseAgent [1]%Q) Sample.later_state).
Proof.
  assert (H1 : forward_readonly Sample.MseAgent) by (intros data σ; reflexivity).
  split; [exact H1|].
  exact (proj2 (proj2 (proj2 (@training_methods_frame Sample.sample_external
                                Sample.MseAgent [1]%Q [] "train" Sample.later_state)))
               H1).
Defined.

(** The sample agent's construction. *)
Lemma constructor_outcomes_sample :
  @init Sample.sample_external (@MyAgent Sample.sample_external)
    Sample.sample_config Sample.empty_world
  = Return Sample.sample_state
  ∧ residency (module (net (agent Sample.sample_state))) = Cuda
  ∧ train_tb (agent Sample.sample_state) = [].
Proof.
  assert (H1 : @init Sample.sample_external (@MyAgent Sample.sample_external)
                 Sample.sample_config Sample.empty_world
               = Return Sample.sample_state) by reflexivity.
  split; [exact H1|].
  destruct (@constructor_outcomes Sample.sample_external (@MyAgent Sample.sample_external)
              Sample.sample_config Sample.empty_world) as (_ & _ & _ & _ & Hinit).
  destruct (Hinit _ H1) as (Hdev & _ & _ & _ & Htb & _).
  split; [exact Hdev | exact Htb].
Defined.
